(** * Floorsheet pipeline: raw store, per-date rollup, global rollup

    A shallow embedding of the three stages of the floorsheet pipeline
    ([floorsheet_downloader.py], [floorsheet_date_summarizer.py],
    [floorsheet_summarizer.py]) and the properties of their merge, retention
    and aggregation logic.

    Modelling conventions.
    - A pandas DataFrame is the list of its rows, in row order; every column
      the code reads is present in every row.
    - Dates are the strings the code handles ("YYYY-MM-DD"); they are compared
      the way Python compares [str], lexicographically by character code.
    - [quantity] is a Python [int] (here [Z]); [rate] and [amount] are
      Python floats, IEEE 754 binary64 numbers with their rounding
      ([spec_float] at precision 53): a float sum depends on the order in
      which it is taken.
    - A parquet file is [option (list row)]: [None] when the path does not
      exist.  The retention cutoff, which the code derives from the wall
      clock, is an explicit argument.
    - A Python [dict] is an association list in insertion order, which is the
      order [dict.values()] and [dict.items()] enumerate.
    - A raised exception is [None] in the [option] monad; each [try]/[except]
      of the source is the [match] that handles it. *)

From Stdlib Require Import List String Ascii Bool ZArith SpecFloat Lia.
From Stdlib Require Import Permutation OrderedTypeEx Sorted.
Import ListNotations.

Local Open Scope string_scope.
Local Open Scope Z_scope.
Local Open Scope list_scope.

(** ** Python and pandas primitives *)

(** The option monad for code that may raise. *)
Definition bind {A B : Type} (c : option A) (k : A -> option B) : option B :=
  match c with
  | Some a => k a
  | None => None
  end.

Notation "x <- c ;; k" := (bind c (fun x => k))
  (at level 61, c at next level, right associativity).

Fixpoint mapM {A B : Type} (f : A -> option B) (l : list A) : option (list B) :=
  match l with
  | [] => Some []
  | a :: l' => b <- f a ;; bs <- mapM f l' ;; Some (b :: bs)
  end.

(** A Python [float]: a binary64 number; [+], [-] and [/] round to nearest,
    ties to even. *)
Definition float : Type := spec_float.

Definition fzero : float := S754_zero false.

Definition fadd (a b : float) : float := SFadd 53 1024 a b.

Definition fsub (a b : float) : float := SFsub 53 1024 a b.

Definition fdiv (a b : float) : float := SFdiv 53 1024 a b.

(** The float an [int] converts to. *)
Definition of_int (z : Z) : float := binary_normalize 53 1024 z 0 false.

Definition is_nan (x : float) : bool :=
  match x with
  | S754_nan => true
  | _ => false
  end.

(** [a / b] for a float [a] and an int [b]: raises [ZeroDivisionError] when
    [b] is zero, and otherwise divides by the float [b] converts to. *)
Definition true_div (a : float) (b : Z) : option float :=
  if b =? 0 then None else Some (fdiv a (of_int b)).

(** [s1 >= s2] on [str]. *)
Definition str_ge (s1 s2 : string) : bool := String.leb s2 s1.

(** [s1 > s2] on [str]. *)
Definition str_gt (s1 s2 : string) : bool := String.ltb s2 s1.

Definition str_mem (s : string) (l : list string) : bool :=
  existsb (String.eqb s) l.

(** [Series.unique()]: the distinct values in order of first appearance. *)
Fixpoint unique (l : list string) : list string :=
  match l with
  | [] => []
  | x :: l' => x :: filter (fun y => negb (String.eqb y x)) (unique l')
  end.

(** A [dict] update of the shape
    [if key not in d: d[key] = init  else: d[key] = upd(d[key])];
    a new key goes to the end, an existing key keeps its position. *)
Fixpoint upsert {K V : Type} (eqb : K -> K -> bool) (k : K) (init : V)
    (upd : V -> V) (d : list (K * V)) : list (K * V) :=
  match d with
  | [] => [(k, init)]
  | (k', v) :: d' =>
      if eqb k k' then (k', upd v) :: d'
      else (k', v) :: upsert eqb k init upd d'
  end.

Definition sumZ (l : list Z) : Z := fold_right Z.add 0 l.

(** The grouped [sum] of a float column.  pandas ([group_sum]) adds the
    values of a group in frame order with Kahan compensation, skipping NaN;
    a compensation that is NaN is reset to zero. *)
Definition kahan_step (st : float * float) (val : float) : float * float :=
  let '(sumx, compensation) := st in
  if is_nan val then st
  else
    let y := fsub val compensation in
    let t := fadd sumx y in
    let c := fsub (fsub t sumx) y in
    (t, if is_nan c then fzero else c).

Definition group_sum (l : list float) : float :=
  fst (fold_left kahan_step l (fzero, fzero)).

(** *** [groupby([k1, k2, k3]).agg(sum).reset_index()]

    pandas returns one row per distinct key triple, the rows sorted by key
    (the default [sort=True]), each carrying the sums of the aggregated
    columns over the rows of its group, taken in frame order: the integer
    sum of an int column and the float sum of a float column. *)

Definition gkey : Type := string * string * string.

Definition gkey_compare (a b : gkey) : comparison :=
  let '(a1, a2, a3) := a in
  let '(b1, b2, b3) := b in
  match String.compare a1 b1 with
  | Eq => match String.compare a2 b2 with
          | Eq => String.compare a3 b3
          | c => c
          end
  | c => c
  end.

Definition gkey_eqb (a b : gkey) : bool :=
  match gkey_compare a b with Eq => true | _ => false end.

(** Insertion into a sorted list of distinct keys. *)
Fixpoint insert_key (k : gkey) (l : list gkey) : list gkey :=
  match l with
  | [] => [k]
  | x :: l' =>
      match gkey_compare k x with
      | Lt => k :: l
      | Eq => l
      | Gt => x :: insert_key k l'
      end
  end.

Definition group_keys (ks : list gkey) : list gkey :=
  fold_right insert_key [] ks.

(** One row of the grouped frame after [reset_index()]. *)
Record Group := mkGroup {
  g_id : string;
  g_name : string;
  g_symbol : string;
  g_quantity : Z;
  g_amount : float
}.

(** The key triple of a grouped row. *)
Definition group_key (g : Group) : gkey := (g_id g, g_name g, g_symbol g).

Section GroupBy.
Context {R : Type}.
Variable key : R -> gkey.
Variable qty : R -> Z.
Variable amt : R -> float.

Definition group_of (df : list R) (k : gkey) : list R :=
  filter (fun r => gkey_eqb (key r) k) df.

Definition groupby_sum (df : list R) : list Group :=
  map (fun k =>
         let g := group_of df k in
         let '(i, n, s) := k in
         mkGroup i n s (sumZ (map qty g)) (group_sum (map amt g)))
      (group_keys (map key df)).
End GroupBy.

(** ** Data model *)

(** A row of the raw floorsheet table. *)
Record Transaction := mkTransaction {
  date : string;
  transaction_no : string;
  symbol : string;
  symbol_full : string;
  buyer_id : string;
  buyer_name : string;
  seller_id : string;
  seller_name : string;
  quantity : Z;
  rate : float;
  amount : float
}.

(** The four accumulators of a broker-stock summary. *)
Record Sums := mkSums {
  buy_quantity : Z;
  buy_amount : float;
  sell_quantity : Z;
  sell_amount : float
}.

(** The four derived columns both rollups add to their frame. *)
Record Metrics := mkMetrics {
  avg_buy_price : float;
  avg_sell_price : float;
  net_quantity : Z;
  avg_holding_price : float
}.

(** The derived-metric lambdas, identical in
    [FloorsheetDateSummarizer.summarize_by_date] and
    [FloorsheetSummarizer.aggregate_broker_stock_data].  The [else 0] of a
    price is the float zero of its float column. *)
Definition derived_metrics (x : Sums) : option Metrics :=
  abp <- (if buy_quantity x >? 0
          then true_div (buy_amount x) (buy_quantity x)
          else Some fzero) ;;
  asp <- (if sell_quantity x >? 0
          then true_div (sell_amount x) (sell_quantity x)
          else Some fzero) ;;
  let net := buy_quantity x - sell_quantity x in
  ahp <- (if net >? 0
          then true_div (fsub (buy_amount x) (sell_amount x)) net
          else Some fzero) ;;
  Some (mkMetrics abp asp net ahp).

(** The retention filter [df[df['date'] >= cutoff_date]]. *)
Definition retain {R : Type} (date_of : R -> string) (cutoff_date : string)
    (df : list R) : list R :=
  filter (fun r => str_ge (date_of r) cutoff_date) df.

(** ** [floorsheet_date_summarizer.py] *)

Module FloorsheetDateSummarizer.

(** A value of the [broker_stock_aggs] dict. *)
Record Entry := mkEntry {
  e_date : string;
  broker_id : string;
  broker_name : string;
  e_symbol : string;
  sums : Sums
}.

(** A row of a per-date summary frame: the entry and its derived columns. *)
Record Row := mkRow {
  entry : Entry;
  metrics : Metrics
}.

Definition row_date (r : Row) : string := e_date (entry r).

(** [broker_stock_aggs], keyed by [(broker_id, symbol)]. *)
Definition Aggs : Type := list ((string * string) * Entry).

Definition key_eqb (a b : string * string) : bool :=
  String.eqb (fst a) (fst b) && String.eqb (snd a) (snd b).

(** Body of the loop over [buy_data.iterrows()]. *)
Definition add_buy (date : string) (aggs : Aggs) (row : Group) : Aggs :=
  upsert key_eqb (g_id row, g_symbol row)
    (mkEntry date (g_id row) (g_name row) (g_symbol row)
       (mkSums (g_quantity row) (g_amount row) 0 fzero))
    (fun v =>
       mkEntry (e_date v) (broker_id v) (broker_name v) (e_symbol v)
         (mkSums (buy_quantity (sums v) + g_quantity row)
                 (fadd (buy_amount (sums v)) (g_amount row))
                 (sell_quantity (sums v))
                 (sell_amount (sums v))))
    aggs.

(** Body of the loop over [sell_data.iterrows()]. *)
Definition add_sell (date : string) (aggs : Aggs) (row : Group) : Aggs :=
  upsert key_eqb (g_id row, g_symbol row)
    (mkEntry date (g_id row) (g_name row) (g_symbol row)
       (mkSums 0 fzero (g_quantity row) (g_amount row)))
    (fun v =>
       mkEntry (e_date v) (broker_id v) (broker_name v) (e_symbol v)
         (mkSums (buy_quantity (sums v))
                 (buy_amount (sums v))
                 (sell_quantity (sums v) + g_quantity row)
                 (fadd (sell_amount (sums v)) (g_amount row))))
    aggs.

Definition buy_key (t : Transaction) : gkey :=
  (buyer_id t, buyer_name t, symbol t).

Definition sell_key (t : Transaction) : gkey :=
  (seller_id t, seller_name t, symbol t).

(** The unified broker-stock aggregation of one date: all buy groups are
    folded first, then all sell groups. *)
Definition broker_stock_aggs (date : string) (date_data : list Transaction)
    : Aggs :=
  let buy_data := groupby_sum buy_key quantity amount date_data in
  let sell_data := groupby_sum sell_key quantity amount date_data in
  fold_left (add_sell date) sell_data (fold_left (add_buy date) buy_data []).

(** The frame of one date, with its derived columns. *)
Definition date_frame (date : string) (date_data : list Transaction)
    : option (list Row) :=
  mapM (fun e => m <- derived_metrics (sums e) ;; Some (mkRow e m))
       (map snd (broker_stock_aggs date date_data)).

(** The loop over [dates]: a frame is stored only when it is not empty.
    The dates are distinct, so each store adds a new key at the end. *)
Fixpoint summarize_dates (data : list Transaction) (dates : list string)
    : option (list (string * list Row)) :=
  match dates with
  | [] => Some []
  | d :: ds =>
      date_df <- date_frame d (filter (fun r => String.eqb (date r) d) data) ;;
      rest <- summarize_dates data ds ;;
      Some (match date_df with
            | [] => rest
            | _ => (d, date_df) :: rest
            end)
  end.

(** The [try] block of [summarize_by_date]. *)
Definition summarize_by_date_try (df : list Transaction)
    : option (list (string * list Row)) :=
  summarize_dates df (unique (map date df)).

(** [summarize_by_date]: the dict of per-date frames, empty when the input
    is empty or when the [try] block raised. *)
Definition summarize_by_date (df : list Transaction)
    : list (string * list Row) :=
  match df with
  | [] => []
  | _ => match summarize_by_date_try df with
         | Some date_summaries => date_summaries
         | None => []
         end
  end.

(** [load_data]: the raw table under the retention policy, empty when the
    input file is missing. *)
Definition load_data (cutoff_date : string)
    (input_file : option (list Transaction)) : list Transaction :=
  match input_file with
  | None => []
  | Some df => retain date cutoff_date df
  end.

(** The pieces [save_date_summaries] appends to [all_date_summaries] when
    the output file exists and still has rows after retention. *)
Definition merge_pieces (existing_df : list Row)
    (date_summaries : list (string * list Row)) : list (list Row) :=
  let existing_dates := unique (map row_date existing_df) in
  flat_map
    (fun '(date, date_df) =>
       if str_mem date existing_dates then
         let filtered_existing :=
           filter (fun r => negb (String.eqb (row_date r) date)) existing_df in
         match filtered_existing with
         | [] => [date_df]
         | _ => [filtered_existing; date_df]
         end
       else [date_df])
    date_summaries.

(** [save_date_summaries]: the success flag and the output file after the
    call. *)
Definition save_date_summaries (cutoff_date : string)
    (date_summaries : list (string * list Row))
    (output_file : option (list Row)) : bool * option (list Row) :=
  match date_summaries with
  | [] => (false, output_file)
  | _ =>
      let all_date_summaries :=
        match output_file with
        | Some existing_df0 =>
            let existing_df := retain row_date cutoff_date existing_df0 in
            match existing_df with
            | [] => map snd date_summaries
            | _ => merge_pieces existing_df date_summaries
            end
        | None => map snd date_summaries
        end in
      match all_date_summaries with
      | [] => (false, output_file)
      | _ => (true, Some (List.concat all_date_summaries))
      end
  end.

(** [run]: load, summarize, save. *)
Definition run (cutoff_date : string)
    (input_file : option (list Transaction))
    (output_file : option (list Row)) : bool * option (list Row) :=
  match load_data cutoff_date input_file with
  | [] => (false, output_file)
  | raw_data =>
      match summarize_by_date raw_data with
      | [] => (false, output_file)
      | date_summaries =>
          save_date_summaries cutoff_date date_summaries output_file
      end
  end.

End FloorsheetDateSummarizer.

(** ** [floorsheet_downloader.py] *)

Module FloorsheetDownloader.

(** The comparison key [df['date'] + '-' + df['transaction_no']]. *)
Definition key (r : Transaction) : string :=
  (date r ++ "-" ++ transaction_no r)%string.

(** [df[~df['key'].isin(existing_df['key'])]]. *)
Definition new_records (df existing_df : list Transaction)
    : list Transaction :=
  filter (fun r => negb (str_mem (key r) (map key existing_df))) df.

(** The table the duplicate check combines:
    [pd.concat([existing_df, new_records])]. *)
Definition dedup_merge (existing_df df : list Transaction)
    : list Transaction :=
  existing_df ++ new_records df existing_df.

Definition len {A : Type} (l : list A) : Z := Z.of_nat (List.length l).

(** [save_to_parquet]: the success flag and the output file after the
    call. *)
Definition save_to_parquet (cutoff_date : string) (df : list Transaction)
    (output_file : option (list Transaction)) (append : bool)
    : bool * option (list Transaction) :=
  match df with
  | [] => (false, output_file)
  | _ =>
      match (if append then output_file else None) with
      | Some existing_df0 =>
          let existing_df := retain date cutoff_date existing_df0 in
          let removed_count := len existing_df0 - len existing_df in
          let new_records := new_records df existing_df in
          if len new_records >? 0 then
            (true, Some (existing_df ++ new_records))
          else if removed_count >? 0 then (true, Some existing_df)
          else (true, output_file)
      | None =>
          let df' := retain date cutoff_date df in
          let removed_count := len df - len df' in
          if removed_count >? 0 then
            match df' with
            | [] => (false, output_file)
            | _ => (true, Some df')
            end
          else (true, Some df)
      end
  end.

(** [main] after the download: the process exit status and the output
    file. *)
Definition main (cutoff_date : string) (df : list Transaction)
    (output_file : option (list Transaction))
    : Z * option (list Transaction) :=
  match df with
  | [] => (1, output_file)
  | _ =>
      let '(success, output_file') :=
        save_to_parquet cutoff_date df output_file true in
      if success then (0, output_file') else (1, output_file')
  end.

End FloorsheetDownloader.

(** ** [floorsheet_summarizer.py] *)

Module FloorsheetSummarizer.

(** A value of the [broker_stock_aggs] dict. *)
Record Entry := mkEntry {
  broker_id : string;
  broker_name : string;
  symbol : string;
  sums : Sums;
  last_updated : string
}.

(** A row of the aggregated frame. *)
Record Row := mkRow {
  entry : Entry;
  metrics : Metrics
}.

(** [broker_stock_aggs], keyed by [(broker_id, broker_name, symbol)]. *)
Definition Aggs : Type := list (gkey * Entry).

Definition key_eqb (a b : gkey) : bool :=
  let '(a1, a2, a3) := a in
  let '(b1, b2, b3) := b in
  String.eqb a1 b1 && String.eqb a2 b2 && String.eqb a3 b3.

Definition row_key (row : FloorsheetDateSummarizer.Row) : gkey :=
  let r := FloorsheetDateSummarizer.entry row in
  (FloorsheetDateSummarizer.broker_id r,
   FloorsheetDateSummarizer.broker_name r,
   FloorsheetDateSummarizer.e_symbol r).

(** The branch [# Initialize new record]. *)
Definition new_record (row : FloorsheetDateSummarizer.Row) : Entry :=
  let r := FloorsheetDateSummarizer.entry row in
  let s := FloorsheetDateSummarizer.sums r in
  mkEntry (FloorsheetDateSummarizer.broker_id r)
    (FloorsheetDateSummarizer.broker_name r)
    (FloorsheetDateSummarizer.e_symbol r)
    (mkSums (buy_quantity s) (buy_amount s) (sell_quantity s) (sell_amount s))
    (FloorsheetDateSummarizer.e_date r).

(** The branch [# Update existing record]. *)
Definition update_record (row : FloorsheetDateSummarizer.Row) (v : Entry)
    : Entry :=
  let r := FloorsheetDateSummarizer.entry row in
  let s := FloorsheetDateSummarizer.sums r in
  let d := FloorsheetDateSummarizer.e_date r in
  mkEntry (broker_id v) (broker_name v) (symbol v)
    (mkSums (buy_quantity (sums v) + buy_quantity s)
            (fadd (buy_amount (sums v)) (buy_amount s))
            (sell_quantity (sums v) + sell_quantity s)
            (fadd (sell_amount (sums v)) (sell_amount s)))
    (if str_gt d (last_updated v) then d else last_updated v).

(** Body of the loop over [df.iterrows()]. *)
Definition add_row (aggs : Aggs) (row : FloorsheetDateSummarizer.Row)
    : Aggs :=
  upsert key_eqb (row_key row) (new_record row) (update_record row) aggs.

(** The dict after the loop. *)
Definition broker_stock_aggs (df : list FloorsheetDateSummarizer.Row)
    : Aggs :=
  fold_left add_row df [].

(** The [try] block of [aggregate_broker_stock_data]. *)
Definition aggregate_try (df : list FloorsheetDateSummarizer.Row)
    : option (list Row) :=
  mapM (fun e => m <- derived_metrics (sums e) ;; Some (mkRow e m))
       (map snd (broker_stock_aggs df)).

(** [aggregate_broker_stock_data]: the aggregated frame, empty when the
    input is empty or when the [try] block raised. *)
Definition aggregate_broker_stock_data
    (df : list FloorsheetDateSummarizer.Row) : list Row :=
  match df with
  | [] => []
  | _ => match aggregate_try df with
         | Some agg_df => agg_df
         | None => []
         end
  end.

(** [run]: the success flag and the output file, which is overwritten. *)
Definition run (input_file : option (list FloorsheetDateSummarizer.Row))
    (output_file : option (list Row)) : bool * option (list Row) :=
  match input_file with
  | None | Some [] => (false, output_file)
  | Some date_summarized_data =>
      match aggregate_broker_stock_data date_summarized_data with
      | [] => (false, output_file)
      | aggregated_data => (true, Some aggregated_data)
      end
  end.

End FloorsheetSummarizer.

(** ** Statements of the specification *)

(** The rules of the derived-metric calculator, as stated for a summary row
    with accumulators [s] and derived columns [m]. *)
Definition metrics_spec (s : Sums) (m : Metrics) : Prop :=
  avg_buy_price m =
    (if buy_quantity s >? 0
     then fdiv (buy_amount s) (of_int (buy_quantity s)) else fzero) /\
  avg_sell_price m =
    (if sell_quantity s >? 0
     then fdiv (sell_amount s) (of_int (sell_quantity s)) else fzero) /\
  net_quantity m = buy_quantity s - sell_quantity s /\
  avg_holding_price m =
    (if net_quantity m >? 0
     then fdiv (fsub (buy_amount s) (sell_amount s)) (of_int (net_quantity m))
     else fzero).

(** A frame row of the per-date rollup carries its dict entry, and metrics
    that follow the rules. *)
Definition row_of (e : FloorsheetDateSummarizer.Entry)
    (r : FloorsheetDateSummarizer.Row) : Prop :=
  FloorsheetDateSummarizer.entry r = e /\
  metrics_spec (FloorsheetDateSummarizer.sums e)
    (FloorsheetDateSummarizer.metrics r).

(** The key of a per-date entry or row. *)
Definition entry_key (e : FloorsheetDateSummarizer.Entry) : string * string :=
  (FloorsheetDateSummarizer.broker_id e, FloorsheetDateSummarizer.e_symbol e).

(** The pair [k] appears as a buyer in [data]. *)
Definition bought (data : list Transaction) (k : string * string) : Prop :=
  exists t, In t data /\ (buyer_id t, symbol t) = k.

(** The name recorded in [e] is the [buyer_name] of a record of [data] in
    which the pair of [e] is the buyer. *)
Definition buyer_named (data : list Transaction)
    (e : FloorsheetDateSummarizer.Entry) : Prop :=
  exists t, In t data /\ (buyer_id t, symbol t) = entry_key e /\
            buyer_name t = FloorsheetDateSummarizer.broker_name e.

(** Invariant of the buy loop: every entry sits under its own key and is
    named after a buyer. *)
Definition buy_inv (data : list Transaction)
    (aggs : FloorsheetDateSummarizer.Aggs) : Prop :=
  Forall (fun p => fst p = entry_key (snd p) /\ buyer_named data (snd p))
         aggs.

(** Invariant of the sell loop: an entry whose pair bought keeps a buyer's
    name, and the pairs that bought all have their entry already. *)
Definition sell_inv (data : list Transaction)
    (aggs : FloorsheetDateSummarizer.Aggs) : Prop :=
  Forall (fun p => fst p = entry_key (snd p) /\
                   (bought data (fst p) -> buyer_named data (snd p)))
         aggs /\
  (forall k, bought data k -> In k (map fst aggs)).

(** A row of the global rollup carries its dict entry, and metrics that
    follow the rules. *)
Definition agg_row_of (e : FloorsheetSummarizer.Entry)
    (r : FloorsheetSummarizer.Row) : Prop :=
  FloorsheetSummarizer.entry r = e /\
  metrics_spec (FloorsheetSummarizer.sums e) (FloorsheetSummarizer.metrics r).

(** An average price is zero whenever its quantity is zero. *)
Definition zero_price_rule (s : Sums) (m : Metrics) : Prop :=
  (buy_quantity s = 0 -> avg_buy_price m = fzero) /\
  (sell_quantity s = 0 -> avg_sell_price m = fzero).

(** The accumulators of a per-date row. *)
Definition date_sums (r : FloorsheetDateSummarizer.Row) : Sums :=
  FloorsheetDateSummarizer.sums (FloorsheetDateSummarizer.entry r).

(** The key of an entry of the global rollup. *)
Definition agg_key (e : FloorsheetSummarizer.Entry) : gkey :=
  (FloorsheetSummarizer.broker_id e, FloorsheetSummarizer.broker_name e,
   FloorsheetSummarizer.symbol e).

(** The per-date rows of [df] that carry the key [k]. *)
Definition rows_of_key (df : list FloorsheetDateSummarizer.Row) (k : gkey)
    : list FloorsheetDateSummarizer.Row :=
  filter (fun r =>
            FloorsheetSummarizer.key_eqb (FloorsheetSummarizer.row_key r) k)
         df.

(** The float sum an accumulator holds after the values [l]: the first
    value initialises it, and each later value is added with [+=], in the
    order of [l]. *)
Definition fold_amounts (l : list float) : float :=
  match l with
  | [] => fzero
  | x :: rest => fold_left fadd rest x
  end.

(** The entry [e] holds the sums of the four accumulators over the rows [g]
    (the two amounts as float sums taken in the order of [g]), and its
    last_updated is the maximum date among them. *)
Definition accumulates (g : list FloorsheetDateSummarizer.Row)
    (e : FloorsheetSummarizer.Entry) : Prop :=
  buy_quantity (FloorsheetSummarizer.sums e) =
    sumZ (map (fun r => buy_quantity (date_sums r)) g) /\
  buy_amount (FloorsheetSummarizer.sums e) =
    fold_amounts (map (fun r => buy_amount (date_sums r)) g) /\
  sell_quantity (FloorsheetSummarizer.sums e) =
    sumZ (map (fun r => sell_quantity (date_sums r)) g) /\
  sell_amount (FloorsheetSummarizer.sums e) =
    fold_amounts (map (fun r => sell_amount (date_sums r)) g) /\
  In (FloorsheetSummarizer.last_updated e)
     (map FloorsheetDateSummarizer.row_date g) /\
  Forall (fun r =>
            str_ge (FloorsheetSummarizer.last_updated e)
                   (FloorsheetDateSummarizer.row_date r) = true) g.

(** The per-date row [r] belongs to the pair [(id, sym)]. *)
Definition date_pair_eqb (id sym : string)
    (r : FloorsheetDateSummarizer.Row) : bool :=
  String.eqb
    (FloorsheetDateSummarizer.broker_id (FloorsheetDateSummarizer.entry r)) id
  && String.eqb
       (FloorsheetDateSummarizer.e_symbol (FloorsheetDateSummarizer.entry r))
       sym.

(** The global entry [e] belongs to the pair [(id, sym)]. *)
Definition agg_pair_eqb (id sym : string) (e : FloorsheetSummarizer.Entry)
    : bool :=
  String.eqb (FloorsheetSummarizer.broker_id e) id
  && String.eqb (FloorsheetSummarizer.symbol e) sym.

(** The total buy_quantity the global rollup records for a pair, and the
    total over the per-date rows of that pair. *)
Definition agg_pair_total (id sym : string)
    (es : list FloorsheetSummarizer.Entry) : Z :=
  sumZ (map (fun e => buy_quantity (FloorsheetSummarizer.sums e))
            (filter (agg_pair_eqb id sym) es)).

Definition date_pair_total (id sym : string)
    (df : list FloorsheetDateSummarizer.Row) : Z :=
  sumZ (map (fun r => buy_quantity (date_sums r))
            (filter (date_pair_eqb id sym) df)).

(** Invariant of the global fold after the rows [l]. *)
Definition fold_inv (l : list FloorsheetDateSummarizer.Row)
    (aggs : FloorsheetSummarizer.Aggs) : Prop :=
  NoDup (map fst aggs) /\
  (forall k, In k (map fst aggs) <->
             In k (map FloorsheetSummarizer.row_key l)) /\
  Forall (fun p => fst p = agg_key (snd p) /\
                   accumulates (rows_of_key l (fst p)) (snd p)) aggs /\
  (forall id sym,
      agg_pair_total id sym (map snd aggs) = date_pair_total id sym l).

(** ** Sample data

    The two trades of the end-to-end example of the specification
    (2024-01-02, symbol X), and further trades used by the concrete runs
    below. *)

Definition trade (d no buyer bname seller sname : string) (qty amt : Z)
    : Transaction :=
  mkTransaction d no "X" "X Ltd." buyer bname seller sname qty
    (fdiv (of_int amt) (of_int qty)) (of_int amt).

Definition tx1 : Transaction :=
  trade "2024-01-02" "1" "B1" "Broker One" "B2" "Broker Two" 100 10000.

Definition tx2 : Transaction :=
  trade "2024-01-02" "2" "B2" "Broker Two" "B1" "Broker One" 40 4200.

(** A trade of ten shares for a zero amount. *)
Definition tx_free : Transaction :=
  trade "2024-01-02" "4" "B1" "Broker One" "B2" "Broker Two" 10 0.

(** The trade [tx2] as a later fetch reports it, under the same key. *)
Definition tx2_refetched : Transaction :=
  trade "2024-01-02" "2" "B2" "Broker Two" "B1" "Broker One" 45 4725.

Definition tx3 : Transaction :=
  trade "2024-01-02" "3" "B1" "Broker One" "B2" "Broker Two" 5 500.

(** A trade of the next trading day. *)
Definition tx4 : Transaction :=
  trade "2024-01-03" "1" "B1" "Broker One" "B2" "Broker Two" 5 500.

(** A trade older than the sample cutoff. *)
Definition tx_old : Transaction :=
  trade "2020-01-01" "1" "B1" "Broker One" "B2" "Broker Two" 7 700.

Definition sample_cutoff : string := "2023-06-01".

(** The date rollup table a first run persists from the raw rows [raw]. *)
Definition rollup_of (raw : list Transaction)
    : list FloorsheetDateSummarizer.Row :=
  List.concat (map snd (FloorsheetDateSummarizer.summarize_by_date raw)).

(** The rows of a date rollup table for the date [d]. *)
Definition rows_of_date (d : string)
    (table : list FloorsheetDateSummarizer.Row)
    : list FloorsheetDateSummarizer.Row :=
  filter (fun r => String.eqb (FloorsheetDateSummarizer.row_date r) d) table.

(** ** Statements about the per-date fold *)

(** The (broker_id, symbol) pair of a grouped row, of a group key, and of
    the buyer and the seller of a record. *)
Definition group_pair (g : Group) : string * string := (g_id g, g_symbol g).

Definition pair_of_gkey (k : gkey) : string * string :=
  let '(i, _, s) := k in (i, s).

Definition buyer_pair (t : Transaction) : string * string :=
  (buyer_id t, symbol t).

Definition seller_pair (t : Transaction) : string * string :=
  (seller_id t, symbol t).

(** The pair [k] appears as a seller in [data]. *)
Definition sold (data : list Transaction) (k : string * string) : Prop :=
  exists t, In t data /\ seller_pair t = k.

(** The grouped rows of the pair [k]. *)
Definition groups_of_pair (k : string * string) (gs : list Group)
    : list Group :=
  filter (fun g => FloorsheetDateSummarizer.key_eqb (group_pair g) k) gs.

(** The records in which the pair [k] buys, and those in which it sells. *)
Definition bought_rows (k : string * string) (data : list Transaction)
    : list Transaction :=
  filter (fun t => FloorsheetDateSummarizer.key_eqb (buyer_pair t) k) data.

Definition sold_rows (k : string * string) (data : list Transaction)
    : list Transaction :=
  filter (fun t => FloorsheetDateSummarizer.key_eqb (seller_pair t) k) data.

(** The sell_amount of a pair after its sell groups with the sums [l]: the
    entry of a pair that bought starts from the literal 0 the buy loop
    stored; otherwise the first sell group initialises it. *)
Definition sell_amounts (bought_groups : list Group) (l : list float)
    : float :=
  match bought_groups with
  | [] => fold_amounts l
  | _ :: _ => fold_left fadd l fzero
  end.

(** The accumulators of the pair [k] after the buy groups [bs] and the sell
    groups [ss] have been folded, the amounts as float sums in group
    order. *)
Definition group_sums (k : string * string) (bs ss : list Group) : Sums :=
  mkSums (sumZ (map g_quantity (groups_of_pair k bs)))
         (fold_amounts (map g_amount (groups_of_pair k bs)))
         (sumZ (map g_quantity (groups_of_pair k ss)))
         (sell_amounts (groups_of_pair k bs)
            (map g_amount (groups_of_pair k ss))).

(** The accumulators of the pair [k] read off the records of the date: the
    quantities are the sums over the records in which the pair buys and over
    those in which it sells; the amounts are the float sums of the grouped
    amounts of the pair, in the order of the grouped frames. *)
Definition pair_sums (data : list Transaction) (k : string * string) : Sums :=
  let buy_data :=
    groupby_sum FloorsheetDateSummarizer.buy_key quantity amount data in
  let sell_data :=
    groupby_sum FloorsheetDateSummarizer.sell_key quantity amount data in
  mkSums (sumZ (map quantity (bought_rows k data)))
         (fold_amounts (map g_amount (groups_of_pair k buy_data)))
         (sumZ (map quantity (sold_rows k data)))
         (sell_amounts (groups_of_pair k buy_data)
            (map g_amount (groups_of_pair k sell_data))).

(** Invariant of the two loops of the per-date fold, after the buy groups
    [bs] and the sell groups [ss]. *)
Definition date_fold_inv (d : string) (bs ss : list Group)
    (aggs : FloorsheetDateSummarizer.Aggs) : Prop :=
  NoDup (map fst aggs) /\
  (forall k, In k (map fst aggs) <->
             In k (map group_pair bs) \/ In k (map group_pair ss)) /\
  Forall (fun p => fst p = entry_key (snd p) /\
                   FloorsheetDateSummarizer.e_date (snd p) = d /\
                   FloorsheetDateSummarizer.sums (snd p) =
                   group_sums (fst p) bs ss) aggs.

(** ** [floorsheet_downloader.py]: requests and pagination *)

(** [s.split(sep)] for a one-character separator: the pieces between the
    separators, at least one piece. *)
Fixpoint split (sep : ascii) (s : string) : list string :=
  match s with
  | EmptyString => [EmptyString]
  | String ch s' =>
      if Ascii.eqb ch sep then EmptyString :: split sep s'
      else match split sep s' with
           | [] => [String ch EmptyString]
           | part :: parts => String ch part :: parts
           end
  end.

(** The number of occurrences of a character, and the string with every
    occurrence of a character replaced by another. *)
Fixpoint count_char (c : ascii) (s : string) : nat :=
  match s with
  | EmptyString => 0%nat
  | String ch s' => ((if Ascii.eqb ch c then 1 else 0) + count_char c s')%nat
  end.

Fixpoint replace_char (old new : ascii) (s : string) : string :=
  match s with
  | EmptyString => EmptyString
  | String ch s' =>
      String (if Ascii.eqb ch old then new else ch) (replace_char old new s')
  end.

(** [range(lo, hi)]. *)
Definition range (lo hi : Z) : list Z :=
  map (fun i => lo + Z.of_nat i) (seq 0 (Z.to_nat (hi - lo))).

Module FloorsheetDownloaderPages.

(** The query parameters of a request. *)
Record Params := mkParams {
  pg : option Z;
  date_param : option string
}.

(** The parameters [_get_page] builds: [pg] beyond the first page, and
    [date] when the target date is set and splits into three parts. *)
Definition get_page_params (target_date : option string) (page_num : Z)
    : Params :=
  mkParams
    (if page_num >? 1 then Some page_num else None)
    (match target_date with
     | Some (String _ _ as d) =>
         let date_parts := split "-"%char d in
         if (List.length date_parts =? 3)%nat
         then Some (String.concat "/" date_parts)
         else None
     | _ => None
     end).

Section Download.

(** What the code reads off a fetched page: the date [_extract_date] finds,
    the count [_get_total_pages] finds, and the data rows of the floorsheet
    table ([None] when the page has no such table).  [parse_row] stands for
    the [try] block that turns the cells of a row into the fields of a
    transaction, [None] when the row is too short or a cell does not
    parse. *)
Variables Cells Fields : Type.
Variable parse_row : Cells -> option Fields.

Record Page := mkPage {
  page_date : option string;
  total_pages : Z;
  table : option (list Cells)
}.

(** [_get_page]: the page of a number, [None] on a request error. *)
Variable get_page : Z -> option Page.

(** A scraped transaction: the date it is stamped with and its fields. *)
Record Scraped := mkScraped {
  s_date : option string;
  s_fields : Fields
}.

(** The attributes of the downloader the download reads and writes. *)
Record State := mkState {
  all_data : list Scraped;
  current_date : option string
}.

(** Truth value of [self.current_date]: false for [None] and for the empty
    string. *)
Definition date_is_set (d : option string) : bool :=
  match d with
  | Some (String _ _) => true
  | _ => false
  end.

(** The transactions of the rows that parse, stamped with [d]. *)
Definition stamp_rows (d : option string) (rows : list Cells)
    : list Scraped :=
  flat_map (fun cells =>
              match parse_row cells with
              | Some f => [mkScraped d f]
              | None => []
              end) rows.

(** [_extract_transactions]. *)
Definition extract_transactions (st : State) (soup : Page)
    : list Scraped * State :=
  match table soup with
  | None => ([], st)
  | Some rows =>
      let d := if date_is_set (current_date st) then current_date st
               else page_date soup in
      (stamp_rows d rows, mkState (all_data st) d)
  end.

(** [if max_pages: total_pages = min(total_pages, max_pages)]. *)
Definition limit_pages (total : Z) (max_pages : option Z) : Z :=
  match max_pages with
  | Some m => if m =? 0 then total else Z.min total m
  | None => total
  end.

(** Body of the loop over the remaining pages. *)
Definition fetch_page (st : State) (page_num : Z) : State :=
  match get_page page_num with
  | Some page_soup =>
      let '(page_transactions, st') := extract_transactions st page_soup in
      mkState (all_data st' ++ page_transactions) (current_date st')
  | None => st
  end.

(** [download_floorsheet]: the rows of the returned frame and the state
    of the downloader after the call. *)
Definition download_floorsheet (st : State) (max_pages : option Z)
    : list Scraped * State :=
  match get_page 1 with
  | None => ([], st)
  | Some first_page =>
      let st1 := mkState (all_data st) (page_date first_page) in
      let total := limit_pages (total_pages first_page) max_pages in
      let '(transactions, st2) := extract_transactions st1 first_page in
      let st3 := mkState (all_data st2 ++ transactions) (current_date st2) in
      let st4 := fold_left fetch_page (range 2 (total + 1)) st3 in
      (all_data st4, st4)
  end.

(** The records a download adds for the page [page_num], were every page
    stamped with [d]. *)
Definition page_records (d : option string) (page_num : Z) : list Scraped :=
  match get_page page_num with
  | Some soup =>
      match table soup with
      | Some rows => stamp_rows d rows
      | None => []
      end
  | None => []
  end.

End Download.

End FloorsheetDownloaderPages.

(** A sample site of three pages: page 1 carries the date and two rows, one
    of which does not parse; the request for page 2 fails; page 3 carries
    one row and no date. *)
Definition sample_parse_row (cells : string) : option string :=
  if String.eqb cells "" then None else Some cells.

Definition sample_get_page (page_num : Z)
    : option (FloorsheetDownloaderPages.Page string) :=
  if page_num =? 1 then
    Some (FloorsheetDownloaderPages.mkPage string (Some "2024-01-02") 3
            (Some ["row a"; ""]))
  else if page_num =? 3 then
    Some (FloorsheetDownloaderPages.mkPage string None 3 (Some ["row b"]))
  else None.

(** ** Statements about the order of the input *)

(** The columns of a per-date entry that hold no float: the date, the key,
    the name and the integer columns, net_quantity being the difference of
    the two quantities. *)
Definition entry_counts (e : FloorsheetDateSummarizer.Entry)
    : string * string * string * string * (Z * Z * Z) :=
  let s := FloorsheetDateSummarizer.sums e in
  (FloorsheetDateSummarizer.e_date e, FloorsheetDateSummarizer.broker_id e,
   FloorsheetDateSummarizer.broker_name e, FloorsheetDateSummarizer.e_symbol e,
   (buy_quantity s, sell_quantity s, buy_quantity s - sell_quantity s)).

(** The same columns read off a row of a per-date frame. *)
Definition date_row_counts (r : FloorsheetDateSummarizer.Row)
    : string * string * string * string * (Z * Z * Z) :=
  let e := FloorsheetDateSummarizer.entry r in
  let s := FloorsheetDateSummarizer.sums e in
  (FloorsheetDateSummarizer.e_date e, FloorsheetDateSummarizer.broker_id e,
   FloorsheetDateSummarizer.broker_name e, FloorsheetDateSummarizer.e_symbol e,
   (buy_quantity s, sell_quantity s,
    net_quantity (FloorsheetDateSummarizer.metrics r))).

(** The columns of a row of the global rollup that hold no float: the key,
    last_updated and the integer columns. *)
Definition agg_row_counts (r : FloorsheetSummarizer.Row)
    : gkey * string * (Z * Z * Z) :=
  let e := FloorsheetSummarizer.entry r in
  let s := FloorsheetSummarizer.sums e in
  (agg_key e, FloorsheetSummarizer.last_updated e,
   (buy_quantity s, sell_quantity s,
    net_quantity (FloorsheetSummarizer.metrics r))).

(** A grouped row, a dict entry and a dict of the per-date fold with the
    float columns set to zero. *)
Definition blank_group (g : Group) : Group :=
  mkGroup (g_id g) (g_name g) (g_symbol g) (g_quantity g) fzero.

Definition blank_entry (e : FloorsheetDateSummarizer.Entry)
    : FloorsheetDateSummarizer.Entry :=
  let s := FloorsheetDateSummarizer.sums e in
  FloorsheetDateSummarizer.mkEntry
    (FloorsheetDateSummarizer.e_date e) (FloorsheetDateSummarizer.broker_id e)
    (FloorsheetDateSummarizer.broker_name e)
    (FloorsheetDateSummarizer.e_symbol e)
    (mkSums (buy_quantity s) fzero (sell_quantity s) fzero).

Definition blank_aggs (aggs : FloorsheetDateSummarizer.Aggs)
    : FloorsheetDateSummarizer.Aggs :=
  map (fun p => (fst p, blank_entry (snd p))) aggs.

(** The date of a per-date frame with the float-free columns of its
    rows. *)
Definition frame_counts (p : string * list FloorsheetDateSummarizer.Row)
    : string * list (string * string * string * string * (Z * Z * Z)) :=
  (fst p, map date_row_counts (snd p)).

(** The float a decimal numeral parses to: the double nearest to [n / d],
    for integers [n] and [d] that a double holds exactly. *)
Definition decimal (n d : Z) : float := fdiv (of_int n) (of_int d).

(** Three trades of one share each on 2024-01-02, in which B1 buys X from
    B2 for 13437.29, for 84743.53 and for 76377.7. *)
Definition priced (no : string) (amt : float) : Transaction :=
  mkTransaction "2024-01-02" no "X" "X Ltd." "B1" "Broker One" "B2"
    "Broker Two" 1 amt amt.

Definition tx_a : Transaction := priced "11" (decimal 1343729 100).

Definition tx_b : Transaction := priced "12" (decimal 8474353 100).

Definition tx_c : Transaction := priced "13" (decimal 763777 10).

(** * Properties *)

(** ** The order on strings and on group keys *)

Lemma str_compare_refl (s : string) : String.compare s s = Eq.
Proof. apply String_as_OT.cmp_eq. reflexivity. Qed.

Lemma str_compare_lt_trans (a b c : string) :
  String.compare a b = Lt -> String.compare b c = Lt -> String.compare a c = Lt.
Proof.
  intros Hab Hbc.
  apply String_as_OT.cmp_lt.
  apply String_as_OT.lt_trans with b; apply String_as_OT.cmp_lt; assumption.
Qed.

Lemma str_compare_gt_lt (a b : string) :
  String.compare a b = Gt <-> String.compare b a = Lt.
Proof.
  rewrite (String.compare_antisym a b).
  destruct (String.compare b a); simpl; split; congruence.
Qed.

Lemma str_ge_refl (s : string) : str_ge s s = true.
Proof. unfold str_ge, String.leb. now rewrite str_compare_refl. Qed.

Lemma str_ge_trans (a b c : string) :
  str_ge a b = true -> str_ge b c = true -> str_ge a c = true.
Proof.
  unfold str_ge, String.leb. intros Hab Hbc.
  destruct (String.compare b a) eqn:E1; try discriminate;
    destruct (String.compare c b) eqn:E2; try discriminate.
  - apply String.compare_eq_iff in E1, E2. subst. now rewrite str_compare_refl.
  - apply String.compare_eq_iff in E1. subst. now rewrite E2.
  - apply String.compare_eq_iff in E2. subst. now rewrite E1.
  - now rewrite (str_compare_lt_trans _ _ _ E2 E1).
Qed.

(** [a > b] fails exactly when [b >= a]. *)
Lemma str_gt_false_ge (a b : string) : str_gt a b = false -> str_ge b a = true.
Proof.
  unfold str_gt, str_ge, String.ltb, String.leb.
  rewrite (String.compare_antisym a b).
  destruct (String.compare b a); simpl; congruence.
Qed.

Lemma str_gt_true_ge (a b : string) : str_gt a b = true -> str_ge a b = true.
Proof.
  unfold str_gt, str_ge, String.ltb, String.leb.
  destruct (String.compare b a); congruence.
Qed.

Lemma str_mem_In (s : string) (l : list string) :
  str_mem s l = true <-> In s l.
Proof.
  unfold str_mem. rewrite existsb_exists. split.
  - intros [x [Hx He]]. apply String.eqb_eq in He. now subst.
  - intros H. exists s. split; [assumption | apply String.eqb_refl].
Qed.

Lemma gkey_compare_lt_iff (a1 a2 a3 b1 b2 b3 : string) :
  gkey_compare (a1, a2, a3) (b1, b2, b3) = Lt <->
  String.compare a1 b1 = Lt \/
  (a1 = b1 /\ (String.compare a2 b2 = Lt \/
               (a2 = b2 /\ String.compare a3 b3 = Lt))).
Proof.
  unfold gkey_compare.
  destruct (String.compare a1 b1) eqn:E1.
  - apply String.compare_eq_iff in E1. subst b1.
    destruct (String.compare a2 b2) eqn:E2.
    + apply String.compare_eq_iff in E2. subst b2.
      split; [intros H; right; split; [reflexivity | right; now split] |].
      intros [H | [_ [H | [_ H]]]]; [discriminate | discriminate | assumption].
    + split; [intros _; right; split; [reflexivity | now left] | reflexivity].
    + split; [discriminate |].
      intros [H | [_ [H | [H _]]]]; try discriminate.
      subst b2. rewrite str_compare_refl in E2. discriminate.
  - split; [intros _; now left | reflexivity].
  - split; [discriminate |].
    intros [H | [H _]]; [discriminate |].
    subst b1. rewrite str_compare_refl in E1. discriminate.
Qed.

Lemma gkey_compare_eq (a b : gkey) : gkey_compare a b = Eq -> a = b.
Proof.
  destruct a as [[a1 a2] a3], b as [[b1 b2] b3]. unfold gkey_compare.
  destruct (String.compare a1 b1) eqn:E1; try discriminate.
  destruct (String.compare a2 b2) eqn:E2; try discriminate.
  intros E3.
  apply String.compare_eq_iff in E1, E2, E3. now subst.
Qed.

Lemma gkey_compare_refl (a : gkey) : gkey_compare a a = Eq.
Proof.
  destruct a as [[a1 a2] a3]. unfold gkey_compare.
  now rewrite !str_compare_refl.
Qed.

Lemma gkey_compare_antisym (a b : gkey) :
  gkey_compare a b = CompOpp (gkey_compare b a).
Proof.
  destruct a as [[a1 a2] a3], b as [[b1 b2] b3]. unfold gkey_compare.
  rewrite (String.compare_antisym a1 b1), (String.compare_antisym a2 b2),
    (String.compare_antisym a3 b3).
  destruct (String.compare b1 a1); simpl; try reflexivity.
  destruct (String.compare b2 a2); simpl; reflexivity.
Qed.

Lemma gkey_compare_gt_lt (a b : gkey) :
  gkey_compare a b = Gt <-> gkey_compare b a = Lt.
Proof.
  rewrite (gkey_compare_antisym a b).
  destruct (gkey_compare b a); simpl; split; congruence.
Qed.

Lemma gkey_compare_lt_trans (a b c : gkey) :
  gkey_compare a b = Lt -> gkey_compare b c = Lt -> gkey_compare a c = Lt.
Proof.
  destruct a as [[a1 a2] a3], b as [[b1 b2] b3], c as [[c1 c2] c3].
  rewrite !gkey_compare_lt_iff.
  intros [H1 | [-> [H2 | [-> H3]]]] [K1 | [<- [K2 | [<- K3]]]]; auto.
  - left. eapply str_compare_lt_trans; eassumption.
  - right. split; [reflexivity |]. left.
    eapply str_compare_lt_trans; eassumption.
  - right. split; [reflexivity |]. right. split; [reflexivity |].
    eapply str_compare_lt_trans; eassumption.
Qed.

Lemma gkey_eqb_eq (a b : gkey) : gkey_eqb a b = true <-> a = b.
Proof.
  unfold gkey_eqb. split.
  - destruct (gkey_compare a b) eqn:E; try discriminate.
    intros _. now apply gkey_compare_eq.
  - intros ->. now rewrite gkey_compare_refl.
Qed.

(** ** [groupby] and the row order *)

Lemma insert_key_comm (a b : gkey) (l : list gkey) :
  insert_key a (insert_key b l) = insert_key b (insert_key a l).
Proof.
  induction l as [| x l IH]; simpl.
  - rewrite (gkey_compare_antisym b a).
    destruct (gkey_compare a b) eqn:E; simpl; try reflexivity.
    apply gkey_compare_eq in E. now subst.
  - destruct (gkey_compare a x) eqn:Eax, (gkey_compare b x) eqn:Ebx; simpl;
      rewrite ?Eax, ?Ebx; try reflexivity.
    + (* a = x, b < x *)
      apply gkey_compare_eq in Eax. subst x.
      apply gkey_compare_gt_lt in Ebx. now rewrite Ebx.
    + (* a < x, b = x *)
      apply gkey_compare_eq in Ebx. subst x.
      apply gkey_compare_gt_lt in Eax. now rewrite Eax.
    + (* a < x, b < x *)
      rewrite (gkey_compare_antisym b a).
      destruct (gkey_compare a b) eqn:E; simpl; try reflexivity.
      apply gkey_compare_eq in E. now subst.
    + (* a < x < b *)
      apply gkey_compare_gt_lt in Ebx.
      pose proof (gkey_compare_lt_trans _ _ _ Eax Ebx) as Hab.
      apply gkey_compare_gt_lt in Hab. now rewrite Hab.
    + (* b < x < a *)
      apply gkey_compare_gt_lt in Eax.
      pose proof (gkey_compare_lt_trans _ _ _ Ebx Eax) as Hba.
      apply gkey_compare_gt_lt in Hba. now rewrite Hba.
    + (* x below both *)
      now rewrite IH.
Qed.

Lemma group_keys_perm (l1 l2 : list gkey) :
  Permutation l1 l2 -> group_keys l1 = group_keys l2.
Proof.
  unfold group_keys.
  induction 1 as [| x l l' _ IH | x y l | l l' l'' _ IH1 _ IH2]; simpl.
  - reflexivity.
  - now rewrite IH.
  - apply insert_key_comm.
  - now rewrite IH1.
Qed.

Lemma sumZ_perm (l1 l2 : list Z) : Permutation l1 l2 -> sumZ l1 = sumZ l2.
Proof.
  unfold sumZ. induction 1; simpl; lia.
Qed.

Lemma filter_perm {A : Type} (f : A -> bool) (l1 l2 : list A) :
  Permutation l1 l2 -> Permutation (filter f l1) (filter f l2).
Proof.
  induction 1 as [| x l l' _ IH | x y l | l l' l'' _ IH1 _ IH2]; simpl.
  - constructor.
  - destruct (f x); [now constructor | assumption].
  - destruct (f x), (f y); try apply Permutation_refl. apply perm_swap.
  - eapply Permutation_trans; eassumption.
Qed.

(** The grouped frames of two permutations of a frame have the same keys,
    in the same order, with the same integer sums; the float sums are taken
    in frame order and are left out. *)
Lemma groupby_sum_perm {R : Type} (key : R -> gkey) (qty : R -> Z)
    (amt : R -> float) (l1 l2 : list R) :
  Permutation l1 l2 ->
  map blank_group (groupby_sum key qty amt l1) =
  map blank_group (groupby_sum key qty amt l2).
Proof.
  intros HP. unfold groupby_sum. rewrite !map_map.
  rewrite (group_keys_perm (map key l1) (map key l2))
    by now apply Permutation_map.
  apply map_ext. intros [[i n] s]. unfold group_of, blank_group. simpl.
  pose proof (filter_perm (fun r => gkey_eqb (key r) (i, n, s)) _ _ HP) as HF.
  f_equal. apply sumZ_perm. now apply Permutation_map.
Qed.

(** ** The derived metrics *)

Lemma true_div_pos (a : float) (z : Z) :
  z > 0 -> true_div a z = Some (fdiv a (of_int z)).
Proof.
  intros Hz. unfold true_div.
  destruct (z =? 0) eqn:E; [| reflexivity].
  apply Z.eqb_eq in E. lia.
Qed.

Lemma guarded_div (a : float) (z : Z) :
  (if z >? 0 then true_div a z else Some fzero) =
  Some (if z >? 0 then fdiv a (of_int z) else fzero).
Proof.
  destruct (z >? 0) eqn:E; [| reflexivity].
  apply true_div_pos. lia.
Qed.

(** The calculator never takes the raising branch of a division. *)
Lemma derived_metrics_total (x : Sums) :
  exists m, derived_metrics x = Some m /\ metrics_spec x m.
Proof.
  unfold derived_metrics. rewrite !guarded_div. simpl.
  eexists. split; [reflexivity |].
  unfold metrics_spec. simpl. repeat split.
Qed.

Lemma mapM_Forall2 {A B : Type} (f : A -> option B) (P : A -> B -> Prop)
    (l : list A) :
  (forall a, exists b, f a = Some b /\ P a b) ->
  exists bs, mapM f l = Some bs /\ Forall2 P l bs.
Proof.
  intros Hf. induction l as [| a l [bs [E HF]]]; simpl.
  - exists []. split; [reflexivity | constructor].
  - destruct (Hf a) as [b [Eb Pb]]. rewrite Eb, E. simpl.
    exists (b :: bs). split; [reflexivity | now constructor].
Qed.

(** ** The per-date rollup never raises *)

Section DateFrames.
Import FloorsheetDateSummarizer.

Lemma date_frame_some (d : string) (data : list Transaction) :
  exists rows,
    date_frame d data = Some rows /\
    Forall2 row_of (map snd (broker_stock_aggs d data)) rows.
Proof.
  unfold date_frame. apply mapM_Forall2. intros e.
  destruct (derived_metrics_total (sums e)) as [m [Em Hm]].
  rewrite Em. simpl. eexists. split; [reflexivity |]. now split.
Qed.

Lemma summarize_dates_some (data : list Transaction) (dates : list string) :
  exists res,
    summarize_dates data dates = Some res /\
    Forall (fun p =>
              In (fst p) dates /\ snd p <> [] /\
              date_frame (fst p)
                (filter (fun r => String.eqb (date r) (fst p)) data)
              = Some (snd p)) res.
Proof.
  induction dates as [| d ds [res [E HF]]]; simpl.
  - exists []. split; [reflexivity | constructor].
  - destruct (date_frame_some d
                (filter (fun r => String.eqb (date r) d) data))
      as [rows [Er _]].
    rewrite Er, E. simpl.
    assert (HF' : Forall (fun p =>
              In (fst p) (d :: ds) /\ snd p <> [] /\
              date_frame (fst p)
                (filter (fun r => String.eqb (date r) (fst p)) data)
              = Some (snd p)) res).
    { eapply Forall_impl; [| exact HF]. simpl. intros p [H1 H2].
      split; [now right | assumption]. }
    destruct rows as [| r rows].
    + exists res. split; [reflexivity | assumption].
    + eexists. split; [reflexivity |]. constructor; [| assumption].
      simpl. split; [now left |]. split; [discriminate | assumption].
Qed.

Lemma summarize_by_date_try_some (df : list Transaction) :
  exists res, summarize_by_date_try df = Some res.
Proof.
  destruct (summarize_dates_some df (unique (map date df))) as [res [E _]].
  now exists res.
Qed.

(** Every row of every frame of [summarize_by_date] comes from an entry
    of that date's aggregation. *)
Lemma summarize_by_date_rows (df : list Transaction) :
  Forall (fun p =>
            snd p <> [] /\
            Forall2 row_of
              (map snd (broker_stock_aggs (fst p)
                 (filter (fun r => String.eqb (date r) (fst p)) df)))
              (snd p))
         (summarize_by_date df).
Proof.
  unfold summarize_by_date. destruct df as [| t df]; [constructor |].
  unfold summarize_by_date_try.
  destruct (summarize_dates_some (t :: df) (unique (map date (t :: df))))
    as [res [E HF]].
  rewrite E. eapply Forall_impl; [| exact HF].
  intros p [_ [Hne Hp]]. split; [assumption |].
  destruct (date_frame_some (fst p)
              (filter (fun r => String.eqb (date r) (fst p)) (t :: df)))
    as [rows [Er H2]].
  rewrite Er in Hp. injection Hp as <-. exact H2.
Qed.

End DateFrames.

(** ** The [dict] update *)

Section Upsert.
Context {K V : Type}.
Variable eqb : K -> K -> bool.
Hypothesis eqb_eq : forall a b, eqb a b = true <-> a = b.
Variables (k : K) (init : V) (upd : V -> V).

(** Either the key is new and goes to the end, or the first (and only)
    binding of the key is updated in place. *)
Lemma upsert_cases (d : list (K * V)) :
  (~ In k (map fst d) /\ upsert eqb k init upd d = d ++ [(k, init)]) \/
  (exists d1 v d2,
      d = d1 ++ (k, v) :: d2 /\ ~ In k (map fst d1) /\
      upsert eqb k init upd d = d1 ++ (k, upd v) :: d2).
Proof.
  induction d as [| [k' v] d IH]; simpl.
  - left. split; [tauto | reflexivity].
  - destruct (eqb k k') eqn:E.
    + apply eqb_eq in E. subst k'. right.
      exists [], v, d. simpl. repeat split. tauto.
    + assert (Hne : k' <> k).
      { intros ->. rewrite (proj2 (eqb_eq k k) eq_refl) in E. discriminate. }
      destruct IH as [[Hn Eu] | [d1 [w [d2 [Ed [Hn Eu]]]]]].
      * left. split; [| now rewrite Eu]. intros [H | H]; tauto.
      * right. exists ((k', v) :: d1), w, d2. simpl.
        split; [now rewrite Ed |]. split; [| now rewrite Eu].
        intros [H | H]; tauto.
Qed.

Lemma upsert_keys (d : list (K * V)) (k' : K) :
  In k' (map fst (upsert eqb k init upd d)) <-> k' = k \/ In k' (map fst d).
Proof.
  destruct (upsert_cases d) as [[_ ->] | [d1 [v [d2 [-> [_ ->]]]]]];
    rewrite !map_app; simpl; rewrite !in_app_iff; simpl; intuition.
Qed.

Lemma upsert_NoDup (d : list (K * V)) :
  NoDup (map fst d) -> NoDup (map fst (upsert eqb k init upd d)).
Proof.
  destruct (upsert_cases d) as [[Hn ->] | [d1 [v [d2 [-> [_ ->]]]]]];
    rewrite !map_app; simpl; [| tauto].
  intros ND. apply NoDup_app; [assumption | | ].
  - constructor; [simpl; tauto | constructor].
  - intros x Hx [<- | []]. contradiction.
Qed.

(** A property of bindings survives the update when it holds of the new
    binding and is kept by [upd] on the binding of [k]. *)
Lemma upsert_Forall (P : K * V -> Prop) (d : list (K * V)) :
  Forall P d ->
  (~ In k (map fst d) -> P (k, init)) ->
  (forall v, In (k, v) d -> P (k, v) -> P (k, upd v)) ->
  Forall P (upsert eqb k init upd d).
Proof.
  intros HF Hnew Hupd.
  destruct (upsert_cases d) as [[Hn ->] | [d1 [v [d2 [Ed [_ ->]]]]]].
  - apply Forall_app. split; [assumption |]. constructor; auto.
  - subst d. apply Forall_app in HF as [H1 H2].
    inversion H2 as [| ? ? Hv H3]; subst.
    apply Forall_app. split; [assumption |]. constructor; [| assumption].
    apply Hupd; [| assumption]. apply in_elt.
Qed.
(** The same for a property that changes with the update: bindings of
    other keys are carried from [P] to [Q]. *)
Lemma upsert_Forall_step (P Q : K * V -> Prop) (d : list (K * V)) :
  NoDup (map fst d) ->
  Forall P d ->
  (forall p, In p d -> fst p <> k -> P p -> Q p) ->
  (~ In k (map fst d) -> Q (k, init)) ->
  (forall v, In (k, v) d -> P (k, v) -> Q (k, upd v)) ->
  Forall Q (upsert eqb k init upd d).
Proof.
  intros ND HF Hother Hnew Hupd.
  assert (Hd : forall p, In p d -> fst p <> k -> Q p).
  { intros p Hp Hk. rewrite Forall_forall in HF. auto. }
  destruct (upsert_cases d) as [[Hn ->] | [d1 [v [d2 [Ed [Hn1 ->]]]]]].
  - apply Forall_app. split.
    + apply Forall_forall. intros p Hp. apply Hd; [assumption |].
      intros E. apply Hn. rewrite <- E. now apply in_map.
    + constructor; auto.
  - subst d. rewrite map_app in ND. simpl in ND.
    apply NoDup_remove_2 in ND. rewrite in_app_iff in ND.
    apply Forall_app. split; [| constructor].
    + apply Forall_forall. intros p Hp. apply Hd.
      * apply in_or_app. now left.
      * intros E. apply Hn1. rewrite <- E. now apply in_map.
    + apply Hupd; [apply in_elt |].
      rewrite Forall_forall in HF. apply HF, in_elt.
    + apply Forall_forall. intros p Hp. apply Hd.
      * apply in_or_app. right. now right.
      * intros E. apply ND. right. rewrite <- E. now apply in_map.
Qed.
End Upsert.

(** ** The groups of [groupby] *)

Lemma insert_key_In (a k : gkey) (l : list gkey) :
  In k (insert_key a l) <-> k = a \/ In k l.
Proof.
  induction l as [| x l IH]; simpl.
  - intuition.
  - destruct (gkey_compare a x) eqn:E; simpl.
    + apply gkey_compare_eq in E. subst x. intuition.
    + intuition.
    + rewrite IH. intuition.
Qed.

Lemma group_keys_In (k : gkey) (l : list gkey) :
  In k (group_keys l) <-> In k l.
Proof.
  unfold group_keys. induction l as [| a l IH]; simpl.
  - reflexivity.
  - rewrite insert_key_In, IH. intuition.
Qed.

Lemma groupby_sum_keys {R : Type} (key : R -> gkey) (qty : R -> Z)
    (amt : R -> float) (df : list R) :
  map group_key (groupby_sum key qty amt df) = group_keys (map key df).
Proof.
  unfold groupby_sum. rewrite map_map.
  rewrite <- (map_id (group_keys (map key df))) at 2.
  apply map_ext. now intros [[i n] s].
Qed.

Lemma groupby_sum_In_key {R : Type} (key : R -> gkey) (qty : R -> Z)
    (amt : R -> float) (df : list R) (k : gkey) :
  In k (map group_key (groupby_sum key qty amt df)) <-> In k (map key df).
Proof. rewrite groupby_sum_keys. apply group_keys_In. Qed.

(** ** The broker-stock fold of one date *)

Section DateFold.
Import FloorsheetDateSummarizer.

Lemma key_eqb_eq (a b : string * string) : key_eqb a b = true <-> a = b.
Proof.
  destruct a as [a1 a2], b as [b1 b2]. unfold key_eqb. simpl.
  rewrite andb_true_iff, !String.eqb_eq. split.
  - now intros [-> ->].
  - intros H. injection H as -> ->. now split.
Qed.

Variable d : string.
Variable data : list Transaction.

Lemma add_buy_inv (aggs : Aggs) (g : Group) :
  In (group_key g) (map buy_key data) ->
  buy_inv data aggs -> buy_inv data (add_buy d aggs g).
Proof.
  intros Hg HI. unfold add_buy.
  apply (upsert_Forall key_eqb key_eqb_eq); [exact HI | |].
  - intros _. simpl. split; [reflexivity |].
    apply in_map_iff in Hg as [t [Ek Ht]].
    unfold group_key, buy_key in Ek. injection Ek as E1 E2 E3.
    exists t. unfold entry_key. simpl. repeat split; congruence.
  - intros v _ [Hk Hn]. simpl in *. split; [exact Hk |].
    destruct Hn as [t Ht]. exists t. exact Ht.
Qed.

Lemma buy_loop_inv (gs : list Group) (aggs : Aggs) :
  (forall g, In g gs -> In (group_key g) (map buy_key data)) ->
  buy_inv data aggs ->
  buy_inv data (fold_left (add_buy d) gs aggs) /\
  (forall k, In k (map fst aggs) \/
             In k (map (fun g => (g_id g, g_symbol g)) gs) ->
             In k (map fst (fold_left (add_buy d) gs aggs))).
Proof.
  revert aggs. induction gs as [| g gs IH]; intros aggs Hgs HI; simpl.
  - split; [assumption |]. intros k [H | []]. exact H.
  - destruct (IH (add_buy d aggs g)) as [H1 H2].
    + intros g' Hg'. apply Hgs. now right.
    + apply add_buy_inv; [apply Hgs; now left | assumption].
    + split; [assumption |]. intros k Hk. apply H2.
      unfold add_buy at 1. rewrite (upsert_keys key_eqb key_eqb_eq).
      destruct Hk as [Hk | [Hk | Hk]]; auto.
Qed.

Lemma add_sell_inv (aggs : Aggs) (g : Group) :
  sell_inv data aggs -> sell_inv data (add_sell d aggs g).
Proof.
  intros [HF HB]. unfold add_sell. split.
  - apply (upsert_Forall key_eqb key_eqb_eq); [exact HF | |].
    + intros Hn. simpl. split; [reflexivity |].
      intros Hb. apply HB in Hb. contradiction.
    + intros v _ [Hk Hn]. simpl in *. split; [exact Hk |].
      intros Hb. destruct (Hn Hb) as [t Ht]. exists t. exact Ht.
  - intros k Hb. rewrite (upsert_keys key_eqb key_eqb_eq). right. now apply HB.
Qed.

Lemma sell_loop_inv (gs : list Group) (aggs : Aggs) :
  sell_inv data aggs -> sell_inv data (fold_left (add_sell d) gs aggs).
Proof.
  revert aggs. induction gs as [| g gs IH]; intros aggs HI; simpl.
  - assumption.
  - apply IH. now apply add_sell_inv.
Qed.

Lemma broker_stock_aggs_inv : sell_inv data (broker_stock_aggs d data).
Proof.
  unfold broker_stock_aggs. apply sell_loop_inv.
  destruct (buy_loop_inv (groupby_sum buy_key quantity amount data) [])
    as [H1 H2].
  - intros g Hg.
    apply groupby_sum_In_key with (qty := quantity) (amt := amount).
    now apply in_map.
  - constructor.
  - split.
    + eapply Forall_impl; [| exact H1]. intros p [Hk Hn]. now split.
    + intros k [t [Ht Ek]]. apply H2. right.
      assert (Hin : In (buy_key t)
                (map group_key (groupby_sum buy_key quantity amount data))).
      { apply groupby_sum_In_key. now apply in_map. }
      apply in_map_iff in Hin as [g [Eg Hg]].
      apply in_map_iff. exists g. split; [| assumption].
      unfold group_key, buy_key in Eg. injection Eg as E1 E2 E3.
      rewrite <- Ek. congruence.
Qed.

End DateFold.

Lemma Forall2_In_l {A B : Type} (P : A -> B -> Prop) (l : list A)
    (l' : list B) (a : A) :
  Forall2 P l l' -> In a l -> exists b, In b l' /\ P a b.
Proof.
  induction 1 as [| x y l l' Hxy _ IH]; simpl; [tauto |].
  intros [<- | Ha].
  - exists y. auto.
  - destruct (IH Ha) as [b [Hb Pb]]. exists b. auto.
Qed.

Lemma Forall2_In_r {A B : Type} (P : A -> B -> Prop) (l : list A)
    (l' : list B) (b : B) :
  Forall2 P l l' -> In b l' -> exists a, In a l /\ P a b.
Proof.
  induction 1 as [| x y l l' Hxy _ IH]; simpl; [tauto |].
  intros [<- | Hb].
  - exists x. auto.
  - destruct (IH Hb) as [a [Ha Pa]]. exists a. auto.
Qed.

(** ** Results on the broker-stock folder *)

Section FolderResults.
Import FloorsheetDateSummarizer.

(** Setting the float columns to zero commutes with both loops of the
    fold: which entries exist, in which order and under which name, and what
    their integer columns hold, does not depend on the amounts. *)
Lemma upsert_map {K V W : Type} (eqb : K -> K -> bool) (f : V -> W) (k : K)
    (init : V) (upd : V -> V) (upd' : W -> W) (aggs : list (K * V)) :
  (forall v, f (upd v) = upd' (f v)) ->
  map (fun p => (fst p, f (snd p))) (upsert eqb k init upd aggs) =
  upsert eqb k (f init) upd' (map (fun p => (fst p, f (snd p))) aggs).
Proof.
  intros H. induction aggs as [| [k' v] aggs IH]; simpl; [reflexivity |].
  destruct (eqb k k'); simpl; [now rewrite H | now rewrite IH].
Qed.

Lemma add_buy_blank (d : string) (aggs : Aggs) (g : Group) :
  blank_aggs (add_buy d aggs g) = add_buy d (blank_aggs aggs) (blank_group g).
Proof.
  unfold blank_aggs, add_buy.
  erewrite (upsert_map key_eqb blank_entry); [reflexivity |].
  intros v. reflexivity.
Qed.

Lemma add_sell_blank (d : string) (aggs : Aggs) (g : Group) :
  blank_aggs (add_sell d aggs g) =
  add_sell d (blank_aggs aggs) (blank_group g).
Proof.
  unfold blank_aggs, add_sell.
  erewrite (upsert_map key_eqb blank_entry); [reflexivity |].
  intros v. reflexivity.
Qed.

Lemma buy_loop_blank (d : string) (gs : list Group) (aggs : Aggs) :
  blank_aggs (fold_left (add_buy d) gs aggs) =
  fold_left (add_buy d) (map blank_group gs) (blank_aggs aggs).
Proof.
  revert aggs. induction gs as [| g gs IH]; simpl; intros aggs;
    [reflexivity |].
  now rewrite IH, add_buy_blank.
Qed.

Lemma sell_loop_blank (d : string) (gs : list Group) (aggs : Aggs) :
  blank_aggs (fold_left (add_sell d) gs aggs) =
  fold_left (add_sell d) (map blank_group gs) (blank_aggs aggs).
Proof.
  revert aggs. induction gs as [| g gs IH]; simpl; intros aggs;
    [reflexivity |].
  now rewrite IH, add_sell_blank.
Qed.

Lemma broker_stock_aggs_perm (d : string) (l1 l2 : list Transaction) :
  Permutation l1 l2 ->
  blank_aggs (broker_stock_aggs d l1) = blank_aggs (broker_stock_aggs d l2).
Proof.
  intros HP. unfold broker_stock_aggs.
  rewrite !sell_loop_blank, !buy_loop_blank.
  rewrite (groupby_sum_perm buy_key quantity amount l1 l2 HP).
  now rewrite (groupby_sum_perm sell_key quantity amount l1 l2 HP).
Qed.

Lemma row_counts_entries (es : list Entry) (rows : list Row) :
  Forall2 row_of es rows -> map date_row_counts rows = map entry_counts es.
Proof.
  induction 1 as [| e r es rows [Ee [_ [_ [Hn _]]]] _ IH]; simpl;
    [reflexivity |].
  rewrite IH. f_equal. unfold date_row_counts, entry_counts.
  now rewrite Hn, Ee.
Qed.

Lemma entry_counts_blank (aggs : Aggs) :
  map entry_counts (map snd (blank_aggs aggs)) =
  map entry_counts (map snd aggs).
Proof.
  unfold blank_aggs. rewrite !map_map. now apply map_ext.
Qed.

(** The frames of two permutations of the records of a date agree row by
    row on every column that holds no float. *)
Lemma date_frame_perm (d : string) (l1 l2 : list Transaction) :
  Permutation l1 l2 ->
  exists rows1 rows2,
    date_frame d l1 = Some rows1 /\ date_frame d l2 = Some rows2 /\
    map date_row_counts rows1 = map date_row_counts rows2.
Proof.
  intros HP.
  destruct (date_frame_some d l1) as [rows1 [E1 H1]].
  destruct (date_frame_some d l2) as [rows2 [E2 H2]].
  exists rows1, rows2. split; [assumption |]. split; [assumption |].
  rewrite (row_counts_entries _ _ H1), (row_counts_entries _ _ H2).
  rewrite <- (entry_counts_blank (broker_stock_aggs d l1)).
  rewrite <- (entry_counts_blank (broker_stock_aggs d l2)).
  now rewrite (broker_stock_aggs_perm d l1 l2 HP).
Qed.

(** C9 (as amended). The broker-stock folder of one trading date produces
    its frame for every input, and the frames of two permutations of the
    input records have the same rows in the same order as far as the date,
    the key, broker_name, buy_quantity, sell_quantity and net_quantity go.
    The float columns (the two amounts and the three prices derived from
    them) are sums taken in the order of the records and are not part of
    the statement. *)
Theorem date_fold_order_independent (d : string)
    (l1 l2 : list Transaction) :
  Permutation l1 l2 ->
  exists rows1 rows2,
    date_frame d l1 = Some rows1 /\ date_frame d l2 = Some rows2 /\
    map date_row_counts rows1 = map date_row_counts rows2.
Proof. apply date_frame_perm. Qed.

Lemma date_fold_order_independent_witness :
  Permutation [tx_a; tx_b; tx_c] [tx_b; tx_c; tx_a] /\
  exists rows1 rows2,
    date_frame "2024-01-02" [tx_a; tx_b; tx_c] = Some rows1 /\
    date_frame "2024-01-02" [tx_b; tx_c; tx_a] = Some rows2 /\
    map date_row_counts rows1 = map date_row_counts rows2.
Proof.
  split; [apply (Permutation_cons_append [tx_b; tx_c] tx_a) |].
  apply date_fold_order_independent.
  apply (Permutation_cons_append [tx_b; tx_c] tx_a).
Defined.

(** B1 buys three times from B2, for 13437.29, 84743.53 and 76377.7.  With
    the records in this order the buy_amount of B1 (and the sell_amount of
    B2) is 5997785077105296 * 2^-35, that is 174558.52000000002; with the
    first record moved to the end it is 5997785077105295 * 2^-35, that is
    174558.52: the two frames differ.  The plain float sums of the three
    amounts in these two orders are the same two numbers. *)
Lemma date_fold_order_dependent :
  Permutation [tx_a; tx_b; tx_c] [tx_b; tx_c; tx_a] /\
  exists rows1 rows2,
    date_frame "2024-01-02" [tx_a; tx_b; tx_c] = Some rows1 /\
    date_frame "2024-01-02" [tx_b; tx_c; tx_a] = Some rows2 /\
    map (fun r => buy_amount (sums (entry r))) rows1 =
      [S754_finite false 5997785077105296 (-35); fzero] /\
    map (fun r => buy_amount (sums (entry r))) rows2 =
      [S754_finite false 5997785077105295 (-35); fzero] /\
    fadd (fadd (amount tx_a) (amount tx_b)) (amount tx_c) =
      S754_finite false 5997785077105296 (-35) /\
    fadd (fadd (amount tx_b) (amount tx_c)) (amount tx_a) =
      S754_finite false 5997785077105295 (-35) /\
    rows1 <> rows2.
Proof.
  split; [apply (Permutation_cons_append [tx_b; tx_c] tx_a) |].
  eexists. eexists. split; [vm_compute; reflexivity |].
  split; [vm_compute; reflexivity |].
  split; [reflexivity |]. split; [reflexivity |].
  split; [vm_compute; reflexivity |]. split; [vm_compute; reflexivity |].
  intros H. discriminate H.
Qed.

(** C10. When a (broker_id, symbol) pair buys in some record of a date,
    the per-date fold has a row for that pair, and the broker_name of
    every row of the pair is the buyer_name of a record in which the pair
    is the buyer, whatever the order of the records: the sell loop never
    renames an entry created by the buy loop. *)
Theorem buyer_name_recorded (d : string) (date_data : list Transaction)
    (t0 : Transaction) :
  In t0 date_data ->
  exists rows,
    date_frame d date_data = Some rows /\
    (exists row, In row rows /\
                 entry_key (entry row) = (buyer_id t0, symbol t0)) /\
    (forall row,
        In row rows ->
        entry_key (entry row) = (buyer_id t0, symbol t0) ->
        exists t, In t date_data /\
                  buyer_id t = buyer_id t0 /\ symbol t = symbol t0 /\
                  buyer_name t = broker_name (entry row)).
Proof.
  intros H0.
  destruct (date_frame_some d date_data) as [rows [E HR]].
  destruct (broker_stock_aggs_inv d date_data) as [HF HB].
  assert (Hb : bought date_data (buyer_id t0, symbol t0))
    by (exists t0; auto).
  exists rows. split; [assumption |]. split.
  - apply HB in Hb. apply in_map_iff in Hb as [[k e] [Ek Hp]].
    simpl in Ek. subst k.
    destruct (Forall2_In_l _ _ _ e HR) as [row [Hrow [Ee _]]].
    { apply in_map_iff. exists ((buyer_id t0, symbol t0), e). auto. }
    exists row. split; [assumption |]. rewrite Ee.
    rewrite Forall_forall in HF. symmetry. exact (proj1 (HF _ Hp)).
  - intros row Hrow Hk.
    destruct (Forall2_In_r _ _ _ row HR Hrow) as [e [He [Ee _]]].
    apply in_map_iff in He as [[k e'] [Ek Hp]]. simpl in Ek. subst e'.
    rewrite Forall_forall in HF. destruct (HF _ Hp) as [Hfst Hn].
    simpl in Hfst, Hn. rewrite Ee in Hk. rewrite Hfst, Hk in Hn.
    destruct (Hn Hb) as [t [Ht [Hkt Hname]]].
    rewrite Hk in Hkt. injection Hkt as E1 E2.
    exists t. rewrite Ee. auto.
Qed.

Lemma buyer_name_recorded_witness :
  In tx1 [tx2; tx1] /\
  exists rows,
    date_frame "2024-01-02" [tx2; tx1] = Some rows /\
    (exists row, In row rows /\
                 entry_key (entry row) = (buyer_id tx1, symbol tx1)) /\
    (forall row,
        In row rows ->
        entry_key (entry row) = (buyer_id tx1, symbol tx1) ->
        exists t, In t [tx2; tx1] /\
                  buyer_id t = buyer_id tx1 /\ symbol t = symbol tx1 /\
                  buyer_name t = broker_name (entry row)).
Proof.
  split; [simpl; auto |].
  apply buyer_name_recorded. simpl. auto.
Defined.

End FolderResults.

(** ** The global rollup never raises *)

Section GlobalFrames.
Import FloorsheetSummarizer.

Lemma aggregate_try_some (df : list FloorsheetDateSummarizer.Row) :
  exists rows,
    aggregate_try df = Some rows /\
    Forall2 agg_row_of (map snd (broker_stock_aggs df)) rows.
Proof.
  unfold aggregate_try. apply mapM_Forall2. intros e.
  destruct (derived_metrics_total (sums e)) as [m [Em Hm]].
  rewrite Em. simpl. eexists. split; [reflexivity |]. now split.
Qed.

Lemma aggregate_rows (df : list FloorsheetDateSummarizer.Row) :
  df <> [] ->
  Forall2 agg_row_of (map snd (broker_stock_aggs df))
    (aggregate_broker_stock_data df).
Proof.
  intros Hne. unfold aggregate_broker_stock_data.
  destruct (aggregate_try_some df) as [rows [E HR]]. rewrite E.
  destruct df; [contradiction | assumption].
Qed.

Lemma aggregate_rows_Forall (P : Sums -> Metrics -> Prop)
    (df : list FloorsheetDateSummarizer.Row) :
  (forall s m, metrics_spec s m -> P s m) ->
  Forall (fun r => P (sums (entry r)) (metrics r))
         (aggregate_broker_stock_data df).
Proof.
  intros HP. destruct df as [| r0 df]; [constructor |].
  assert (HR := aggregate_rows (r0 :: df)).
  apply Forall_forall. intros r Hr.
  destruct (Forall2_In_r _ _ _ r (HR ltac:(discriminate)) Hr)
    as [e [_ [Ee Hm]]].
  rewrite Ee. now apply HP.
Qed.

End GlobalFrames.

Lemma summarize_rows_Forall (P : Sums -> Metrics -> Prop)
    (df : list Transaction) :
  (forall s m, metrics_spec s m -> P s m) ->
  Forall (fun p =>
            Forall (fun r =>
                      P (FloorsheetDateSummarizer.sums
                           (FloorsheetDateSummarizer.entry r))
                        (FloorsheetDateSummarizer.metrics r)) (snd p))
         (FloorsheetDateSummarizer.summarize_by_date df).
Proof.
  intros HP. eapply Forall_impl; [| apply summarize_by_date_rows].
  intros p [_ HR]. apply Forall_forall. intros r Hr.
  destruct (Forall2_In_r _ _ _ r HR Hr) as [e [_ [Ee Hm]]].
  rewrite Ee. now apply HP.
Qed.

(** ** The fold of the global rollup *)

Lemma sumZ_app (l1 l2 : list Z) : sumZ (l1 ++ l2) = sumZ l1 + sumZ l2.
Proof. unfold sumZ. induction l1; simpl; lia. Qed.

Lemma sumZ_map_snoc {A : Type} (f : A -> Z) (l : list A) (x : A) :
  sumZ (map f (l ++ [x])) = sumZ (map f l) + f x.
Proof. rewrite map_app, sumZ_app. unfold sumZ at 2. simpl. lia. Qed.

(** One more [+=] on an accumulator that already holds a value. *)
Lemma fold_amounts_snoc {A : Type} (f : A -> float) (l : list A) (x : A) :
  l <> [] ->
  fold_amounts (map f (l ++ [x])) = fadd (fold_amounts (map f l)) (f x).
Proof.
  destruct l as [| y l]; [contradiction |]. intros _.
  simpl. now rewrite map_app, fold_left_app.
Qed.

Lemma filter_none {A : Type} (f : A -> bool) (l : list A) :
  (forall x, In x l -> f x = false) -> filter f l = [].
Proof.
  induction l as [| a l IH]; simpl; intros H; [reflexivity |].
  rewrite (H a) by now left. apply IH. intros x Hx. apply H. now right.
Qed.

Lemma filter_snoc {A : Type} (f : A -> bool) (l : list A) (x : A) :
  filter f (l ++ [x]) = if f x then filter f l ++ [x] else filter f l.
Proof.
  rewrite filter_app. simpl. destruct (f x); [reflexivity | apply app_nil_r].
Qed.

Section GlobalFold.
Import FloorsheetSummarizer.

Lemma agg_key_eqb_eq (a b : gkey) : key_eqb a b = true <-> a = b.
Proof.
  destruct a as [[a1 a2] a3], b as [[b1 b2] b3]. unfold key_eqb.
  rewrite !andb_true_iff, !String.eqb_eq. split.
  - now intros [[-> ->] ->].
  - intros H. injection H as -> -> ->. auto.
Qed.

Lemma agg_key_eqb_neq (a b : gkey) : a <> b -> key_eqb a b = false.
Proof.
  intros H. destruct (key_eqb a b) eqn:E; [| reflexivity].
  apply agg_key_eqb_eq in E. contradiction.
Qed.

Lemma rows_of_key_snoc_other (l : list FloorsheetDateSummarizer.Row)
    (r : FloorsheetDateSummarizer.Row) (k : gkey) :
  row_key r <> k -> rows_of_key (l ++ [r]) k = rows_of_key l k.
Proof.
  intros H. unfold rows_of_key. rewrite filter_snoc.
  now rewrite (agg_key_eqb_neq _ _ H).
Qed.

Lemma rows_of_key_snoc_same (l : list FloorsheetDateSummarizer.Row)
    (r : FloorsheetDateSummarizer.Row) :
  rows_of_key (l ++ [r]) (row_key r) = rows_of_key l (row_key r) ++ [r].
Proof.
  unfold rows_of_key. rewrite filter_snoc.
  now rewrite (proj2 (agg_key_eqb_eq _ _) eq_refl).
Qed.

Lemma rows_of_key_absent (l : list FloorsheetDateSummarizer.Row) (k : gkey) :
  ~ In k (map row_key l) -> rows_of_key l k = [].
Proof.
  intros H. apply filter_none. intros x Hx. apply agg_key_eqb_neq.
  intros E. apply H. rewrite <- E. now apply in_map.
Qed.

Lemma accumulates_init (r : FloorsheetDateSummarizer.Row) :
  accumulates [r] (new_record r).
Proof.
  unfold accumulates, sumZ. simpl.
  rewrite !Z.add_0_r. repeat split; auto.
  constructor; [apply str_ge_refl | constructor].
Qed.

Lemma accumulates_upd (g : list FloorsheetDateSummarizer.Row)
    (v : Entry) (r : FloorsheetDateSummarizer.Row) :
  accumulates g v -> accumulates (g ++ [r]) (update_record r v).
Proof.
  intros [H1 [H2 [H3 [H4 [H5 H6]]]]]. unfold accumulates. simpl.
  assert (Hg : g <> []) by (intros ->; contradiction).
  rewrite !sumZ_map_snoc, !(fold_amounts_snoc _ g r Hg).
  rewrite <- H1, <- H2, <- H3, <- H4.
  repeat split; try reflexivity.
  - rewrite map_app. apply in_or_app.
    destruct (str_gt _ _); [right; now left | now left].
  - apply Forall_app. split.
    + destruct (str_gt _ _) eqn:E; [| assumption].
      apply str_gt_true_ge in E.
      eapply Forall_impl; [| exact H6]. intros a Ha.
      eapply str_ge_trans; eassumption.
    + constructor; [| constructor].
      destruct (str_gt _ _) eqn:E; [apply str_ge_refl |].
      now apply str_gt_false_ge.
Qed.

Lemma agg_pair_total_app (id sym : string) (es1 es2 : list Entry) :
  agg_pair_total id sym (es1 ++ es2) =
  agg_pair_total id sym es1 + agg_pair_total id sym es2.
Proof.
  unfold agg_pair_total. now rewrite filter_app, map_app, sumZ_app.
Qed.

Lemma agg_pair_total_cons (id sym : string) (e : Entry) (es : list Entry) :
  agg_pair_total id sym (e :: es) =
  (if agg_pair_eqb id sym e then buy_quantity (sums e) else 0) +
  agg_pair_total id sym es.
Proof.
  unfold agg_pair_total. simpl. destruct (agg_pair_eqb id sym e); reflexivity.
Qed.

Lemma date_pair_total_snoc (id sym : string)
    (l : list FloorsheetDateSummarizer.Row)
    (r : FloorsheetDateSummarizer.Row) :
  date_pair_total id sym (l ++ [r]) =
  date_pair_total id sym l +
  (if date_pair_eqb id sym r then buy_quantity (date_sums r) else 0).
Proof.
  unfold date_pair_total. rewrite filter_snoc.
  destruct (date_pair_eqb id sym r); [| lia].
  exact (sumZ_map_snoc (fun r => buy_quantity (date_sums r)) _ _).
Qed.

Lemma add_row_inv (l : list FloorsheetDateSummarizer.Row) (aggs : Aggs)
    (r : FloorsheetDateSummarizer.Row) :
  fold_inv l aggs -> fold_inv (l ++ [r]) (add_row aggs r).
Proof.
  intros [ND [HK [HF HT]]]. unfold add_row.
  split; [| split; [| split]].
  - now apply (upsert_NoDup key_eqb agg_key_eqb_eq).
  - intros k. rewrite (upsert_keys key_eqb agg_key_eqb_eq).
    rewrite map_app, in_app_iff, HK. simpl. intuition.
  - apply (upsert_Forall_step key_eqb agg_key_eqb_eq) with (2 := HF);
      [assumption | | |].
    + intros p _ Hne [Hk Hacc]. split; [assumption |].
      rewrite rows_of_key_snoc_other; [assumption | congruence].
    + intros Hn. simpl. split; [reflexivity |].
      rewrite rows_of_key_snoc_same, rows_of_key_absent.
      * apply accumulates_init.
      * now rewrite <- HK.
    + intros v _ [Hk Hacc]. simpl in *. split; [exact Hk |].
      rewrite rows_of_key_snoc_same. now apply accumulates_upd.
  - intros id sym. rewrite date_pair_total_snoc, <- HT.
    destruct (upsert_cases key_eqb agg_key_eqb_eq (row_key r)
                (new_record r) (update_record r) aggs)
      as [[_ E] | [d1 [v [d2 [Ed [_ E]]]]]].
    + rewrite E, map_app, agg_pair_total_app. simpl.
      rewrite agg_pair_total_cons. unfold agg_pair_total at 2. simpl.
      unfold agg_pair_eqb, date_pair_eqb, date_sums. simpl. lia.
    + rewrite E. subst aggs. rewrite !map_app, !agg_pair_total_app. simpl.
      rewrite !agg_pair_total_cons.
      apply Forall_app in HF as [_ HF].
      inversion HF as [| ? ? [Hk _] _]; subst. simpl in Hk.
      unfold agg_key, row_key in Hk. injection Hk as E1 E2 E3.
      unfold agg_pair_eqb, date_pair_eqb, date_sums. simpl.
      rewrite E1, E3.
      destruct (_ && _); lia.
Qed.

Lemma global_aggs_inv (df : list FloorsheetDateSummarizer.Row) :
  fold_inv df (broker_stock_aggs df).
Proof.
  unfold broker_stock_aggs.
  induction df as [| r l IH] using rev_ind.
  - simpl. repeat split; try tauto; constructor.
  - rewrite fold_left_app. simpl. now apply add_row_inv.
Qed.

End GlobalFold.

Lemma aggregate_entries (df : list FloorsheetDateSummarizer.Row) :
  map FloorsheetSummarizer.entry
    (FloorsheetSummarizer.aggregate_broker_stock_data df) =
  map snd (FloorsheetSummarizer.broker_stock_aggs df).
Proof.
  destruct df as [| r df]; [reflexivity |].
  assert (HR := aggregate_rows (r :: df) ltac:(discriminate)).
  induction HR as [| e row es rows [Ee _] _ IH]; simpl; [reflexivity |].
  now rewrite Ee, IH.
Qed.

Lemma fold_inv_keys (l : list FloorsheetDateSummarizer.Row)
    (aggs : FloorsheetSummarizer.Aggs) :
  fold_inv l aggs -> map agg_key (map snd aggs) = map fst aggs.
Proof.
  intros [_ [_ [HF _]]]. induction HF as [| p aggs [Hk _] _ IH]; simpl.
  - reflexivity.
  - now rewrite IH, Hk.
Qed.

(** ** Result on the global rollup *)

(** C7. For every per-date input table, the fold of the global rollup
    keeps one entry per key (broker_id, broker_name, symbol) of the input;
    the entry holds the sums of buy_quantity, buy_amount, sell_quantity and
    sell_amount over all input rows with that key (the two amounts as the
    float sums the fold takes: the first row of the key initialises the
    accumulator and every later row is added to it in row order), and its
    last_updated is the maximum date among those rows; and the total
    buy_quantity recorded for a pair (broker_id, symbol) equals the sum of
    buy_quantity over all input rows of that pair. *)
Theorem global_fold_totals (df : list FloorsheetDateSummarizer.Row) :
  let out := map FloorsheetSummarizer.entry
               (FloorsheetSummarizer.aggregate_broker_stock_data df) in
  NoDup (map agg_key out) /\
  (forall k, In k (map agg_key out) <->
             In k (map FloorsheetSummarizer.row_key df)) /\
  Forall (fun e => accumulates (rows_of_key df (agg_key e)) e) out /\
  (forall id sym, agg_pair_total id sym out = date_pair_total id sym df).
Proof.
  intros out. subst out. rewrite aggregate_entries.
  pose proof (global_aggs_inv df) as HI.
  rewrite (fold_inv_keys _ _ HI).
  destruct HI as [ND [HK [HF HT]]].
  repeat split; try assumption; try apply HK.
  apply Forall_forall. intros e He.
  apply in_map_iff in He as [p [<- Hp]].
  rewrite Forall_forall in HF. destruct (HF p Hp) as [Hk Hacc].
  now rewrite <- Hk.
Qed.

(** ** The retention filter *)

Lemma retain_all_ge {R : Type} (date_of : R -> string) (c : string)
    (df : list R) :
  Forall (fun r => str_ge (date_of r) c = true) (retain date_of c df).
Proof.
  apply Forall_forall. intros r Hr. unfold retain in Hr.
  now apply filter_In in Hr.
Qed.

Lemma filter_all {A : Type} (f : A -> bool) (l : list A) :
  Forall (fun x => f x = true) l -> filter f l = l.
Proof.
  induction 1 as [| x l Hx _ IH]; simpl; [reflexivity |].
  now rewrite Hx, IH.
Qed.

(** Filtering an already filtered table with the same cutoff is a no-op. *)
Lemma retain_idem {R : Type} (date_of : R -> string) (c : string)
    (df : list R) :
  retain date_of c (retain date_of c df) = retain date_of c df.
Proof. apply filter_all, (retain_all_ge date_of). Qed.

Lemma filter_length_eq {A : Type} (f : A -> bool) (l : list A) :
  List.length (filter f l) = List.length l -> filter f l = l.
Proof.
  induction l as [| x l IH]; simpl; [reflexivity |].
  destruct (f x); simpl; intros H.
  - f_equal. apply IH. lia.
  - pose proof (filter_length_le f l). lia.
Qed.

(** ** The raw store *)

Section RawStore.
Import FloorsheetDownloader.

Lemma str_app_inj (a b x y : string) :
  String.length a = String.length b ->
  (a ++ x)%string = (b ++ y)%string -> a = b /\ x = y.
Proof.
  revert b. induction a as [| c a IH]; intros [| c' b]; simpl;
    try discriminate.
  - auto.
  - intros Hl E. injection Hl as Hl. injection E as -> E.
    destruct (IH b Hl E) as [-> ->]. auto.
Qed.

(** On dates of one length, as all "YYYY-MM-DD" dates are, the comparison
    key determines the pair (date, transaction_no). *)
Lemma key_inj (r1 r2 : Transaction) :
  String.length (date r1) = String.length (date r2) ->
  key r1 = key r2 ->
  date r1 = date r2 /\ transaction_no r1 = transaction_no r2.
Proof.
  unfold key. intros Hl E.
  destruct (str_app_inj _ _ _ _ Hl E) as [Hd Ht].
  split; [assumption |]. simpl in Ht. now injection Ht.
Qed.

Lemma new_records_In (df existing_df : list Transaction) (r : Transaction) :
  In r (new_records df existing_df) <->
  In r df /\ ~ In (key r) (map key existing_df).
Proof.
  unfold new_records. rewrite filter_In, negb_true_iff.
  rewrite <- str_mem_In. destruct (str_mem _ _); intuition congruence.
Qed.

(** In the duplicate-checking path the table on disk after the call is the
    retained existing rows followed by the new records, whichever of its
    three branches is taken. *)
Lemma save_to_parquet_merge (c : string) (df existing_df0 : list Transaction) :
  df <> [] ->
  save_to_parquet c df (Some existing_df0) true =
  (true, Some (dedup_merge (retain date c existing_df0) df)).
Proof.
  intros Hne. destruct df as [| t df]; [contradiction |].
  unfold save_to_parquet, dedup_merge, len.
  set (nr := new_records (t :: df) (retain date c existing_df0)).
  destruct nr as [| n nr'] eqn:En.
  - simpl. rewrite app_nil_r.
    destruct (_ >? 0) eqn:Er; [reflexivity |].
    f_equal. f_equal. symmetry. apply filter_length_eq.
    pose proof (filter_length_le (fun r => str_ge (date r) c) existing_df0).
    unfold retain in Er. lia.
  - replace (Z.of_nat (List.length (n :: nr')) >? 0) with true; [reflexivity |].
    symmetry. apply Z.gtb_lt. simpl List.length. lia.
Qed.

End RawStore.

(** ** Results on the raw store *)

Lemma dedup_merge_rows (existing_df df : list Transaction) (r : Transaction) :
  In r (FloorsheetDownloader.dedup_merge existing_df df) <->
  In r existing_df \/
  (In r df /\
   ~ In (FloorsheetDownloader.key r)
        (map FloorsheetDownloader.key existing_df)).
Proof.
  unfold FloorsheetDownloader.dedup_merge.
  rewrite in_app_iff, new_records_In. reflexivity.
Qed.

Lemma dedup_merge_keys (existing_df df : list Transaction) (k : string) :
  In k (map FloorsheetDownloader.key
          (FloorsheetDownloader.dedup_merge existing_df df)) <->
  In k (map FloorsheetDownloader.key existing_df) \/
  In k (map FloorsheetDownloader.key df).
Proof.
  rewrite !in_map_iff. split.
  - intros [r [Ek Hr]]. apply dedup_merge_rows in Hr as [Hr | [Hr _]];
      [left | right]; exists r; auto.
  - intros [[r [Ek Hr]] | [r [Ek Hr]]].
    + exists r. split; [assumption |]. apply dedup_merge_rows. now left.
    + destruct (in_dec string_dec k
                  (map FloorsheetDownloader.key existing_df)) as [Hin | Hn].
      * apply in_map_iff in Hin as [r' [Ek' Hr']].
        exists r'. split; [assumption |]. apply dedup_merge_rows. now left.
      * exists r. split; [assumption |]. apply dedup_merge_rows. right.
        split; [assumption |]. now rewrite Ek.
Qed.

(** C3 (as amended). For every persisted raw table, every cutoff and every
    non-empty new batch, the save succeeds and the table it leaves on disk
    is the transaction dedup merge of the retained persisted rows (those
    whose date is not older than the cutoff) with the batch.  Its key set
    is the union of the key set of the retained persisted rows and the key
    set of the batch, the key being the string date-transaction_no, which on
    dates of one length determines the pair (trading_date, transaction_no).
    On collision with the key of a retained persisted row, the persisted
    row is kept and the row of the batch is dropped.  A persisted row older
    than the cutoff is dropped, so that a batch row with its key is
    written. *)
Theorem dedup_merge_existing_wins (c : string)
    (existing_df0 df : list Transaction) :
  df <> [] ->
  exists merged,
    FloorsheetDownloader.save_to_parquet c df (Some existing_df0) true =
      (true, Some merged) /\
    merged =
      FloorsheetDownloader.dedup_merge (retain date c existing_df0) df /\
    (forall k,
        In k (map FloorsheetDownloader.key merged) <->
        (exists r, In r existing_df0 /\ str_ge (date r) c = true /\
                   FloorsheetDownloader.key r = k) \/
        In k (map FloorsheetDownloader.key df)) /\
    (forall r,
        In r merged <->
        (In r existing_df0 /\ str_ge (date r) c = true) \/
        (In r df /\
         forall r', In r' existing_df0 -> str_ge (date r') c = true ->
                    FloorsheetDownloader.key r' <>
                    FloorsheetDownloader.key r)) /\
    (forall r1 r2,
        String.length (date r1) = String.length (date r2) ->
        FloorsheetDownloader.key r1 = FloorsheetDownloader.key r2 ->
        date r1 = date r2 /\ transaction_no r1 = transaction_no r2).
Proof.
  intros Hne.
  assert (Hret : forall r, In r (retain date c existing_df0) <->
                           In r existing_df0 /\ str_ge (date r) c = true)
    by (intros r; apply filter_In).
  assert (Hkeys : forall k,
             In k (map FloorsheetDownloader.key (retain date c existing_df0))
             <-> exists r, In r existing_df0 /\ str_ge (date r) c = true /\
                           FloorsheetDownloader.key r = k).
  { intros k. rewrite in_map_iff. split.
    - intros [r [Ek Hr]]. apply Hret in Hr as [Hr Hd]. exists r. auto.
    - intros [r [Hr [Hd Ek]]]. exists r. split; [assumption |].
      apply Hret. auto. }
  exists (FloorsheetDownloader.dedup_merge (retain date c existing_df0) df).
  split; [now apply save_to_parquet_merge |]. split; [reflexivity |].
  split; [| split].
  - intros k. now rewrite dedup_merge_keys, Hkeys.
  - intros r. rewrite dedup_merge_rows, Hret, Hkeys. split.
    + intros [H | [Hr Hn]]; [now left | right]. split; [assumption |].
      intros r' Hr' Hd' Ek. apply Hn. exists r'. auto.
    + intros [H | [Hr Hn]]; [now left | right]. split; [assumption |].
      intros [r' [Hr' [Hd' Ek]]]. exact (Hn r' Hr' Hd' Ek).
  - apply key_inj.
Qed.

Lemma dedup_merge_existing_wins_witness :
  [tx2_refetched; tx3] <> [] /\
  exists merged,
    FloorsheetDownloader.save_to_parquet sample_cutoff [tx2_refetched; tx3]
      (Some [tx_old; tx1; tx2]) true = (true, Some merged) /\
    merged =
      FloorsheetDownloader.dedup_merge
        (retain date sample_cutoff [tx_old; tx1; tx2])
        [tx2_refetched; tx3] /\
    (forall k,
        In k (map FloorsheetDownloader.key merged) <->
        (exists r, In r [tx_old; tx1; tx2] /\
                   str_ge (date r) sample_cutoff = true /\
                   FloorsheetDownloader.key r = k) \/
        In k (map FloorsheetDownloader.key [tx2_refetched; tx3])) /\
    (forall r,
        In r merged <->
        (In r [tx_old; tx1; tx2] /\ str_ge (date r) sample_cutoff = true) \/
        (In r [tx2_refetched; tx3] /\
         forall r', In r' [tx_old; tx1; tx2] ->
                    str_ge (date r') sample_cutoff = true ->
                    FloorsheetDownloader.key r' <>
                    FloorsheetDownloader.key r)) /\
    (forall r1 r2,
        String.length (date r1) = String.length (date r2) ->
        FloorsheetDownloader.key r1 = FloorsheetDownloader.key r2 ->
        date r1 = date r2 /\ transaction_no r1 = transaction_no r2).
Proof.
  split; [discriminate |].
  apply (dedup_merge_existing_wins sample_cutoff [tx_old; tx1; tx2]
           [tx2_refetched; tx3]).
  discriminate.
Defined.

(** With persisted keys {k1, k2} and new-batch keys {k2, k3} the table the
    save leaves on disk has the keys {k1, k2, k3}, but the row of k2 is the
    persisted one, not the one of the new batch. *)
Lemma dedup_merge_keeps_existing_row :
  FloorsheetDownloader.key tx2_refetched = FloorsheetDownloader.key tx2 /\
  tx2_refetched <> tx2 /\
  FloorsheetDownloader.dedup_merge [tx1; tx2] [tx2_refetched; tx3] =
  [tx1; tx2; tx3] /\
  FloorsheetDownloader.save_to_parquet sample_cutoff [tx2_refetched; tx3]
    (Some [tx1; tx2]) true = (true, Some [tx1; tx2; tx3]) /\
  ~ In tx2_refetched [tx1; tx2; tx3].
Proof.
  split; [reflexivity |]. split; [discriminate |].
  split; [reflexivity |]. split; [reflexivity |].
  intros H. apply (in_map quantity) in H. simpl in H.
  intuition discriminate.
Qed.

(** C4 (the code at the failing input). The existing file holds one row
    inside the retention window and the new batch holds one row older than
    the cutoff: the run keeps the existing row, counts the batch row as new
    and writes both, so the persisted raw table contains a row whose date
    is strictly older than the cutoff.  The batch is filtered only when no
    file exists yet. *)
Theorem stale_row_written :
  FloorsheetDownloader.save_to_parquet sample_cutoff [tx_old] (Some [tx1])
    true = (true, Some [tx1; tx_old]) /\
  str_ge (date tx_old) sample_cutoff = false /\
  FloorsheetDownloader.save_to_parquet sample_cutoff [tx_old; tx1] None true =
  (true, Some [tx1]).
Proof. repeat split. Qed.

(** C8 (as amended). When the new batch is empty after retention filtering
    and no persisted raw table exists, the write is skipped, the file stays
    absent, and the run reports failure: the process exits with status 1. *)
Theorem empty_batch_exits_1 (c : string) (df : list Transaction) :
  retain date c df = [] ->
  FloorsheetDownloader.main c df None = (1, None).
Proof.
  intros He. destruct df as [| t df]; [reflexivity |].
  unfold FloorsheetDownloader.main, FloorsheetDownloader.save_to_parquet.
  rewrite He. unfold FloorsheetDownloader.len.
  replace (_ >? 0) with true; [reflexivity |].
  symmetry. apply Z.gtb_lt. simpl List.length. lia.
Qed.

Lemma empty_batch_exits_1_witness :
  retain date sample_cutoff [tx_old] = [] /\
  FloorsheetDownloader.main sample_cutoff [tx_old] None = (1, None).
Proof.
  split; [reflexivity |].
  apply (empty_batch_exits_1 sample_cutoff [tx_old]). reflexivity.
Defined.

(** A batch that retention empties, with no file on disk: the run does not
    report a successful no-op, its exit status is not 0. *)
Lemma empty_batch_not_success :
  retain date sample_cutoff [tx_old] = [] /\
  fst (FloorsheetDownloader.main sample_cutoff [tx_old] None) <> 0.
Proof. split; [reflexivity | discriminate]. Qed.

(** ** The date rollup at its failing inputs *)

(** C1 (the code at the failing input). The raw store holds trades of two
    dates and no date rollup exists.  The first run persists four rows.
    The second run, on the same raw store, finds both dates in the
    persisted table and, for each of them, appends the whole persisted
    table without that date and then the new rows of the date: it persists
    eight rows, which are not a permutation of the four. *)
Theorem date_rollup_rerun_duplicates :
  let raw := Some [tx1; tx2; tx4] in
  let run1 := FloorsheetDateSummarizer.run sample_cutoff raw None in
  let run2 := FloorsheetDateSummarizer.run sample_cutoff raw (snd run1) in
  fst run1 = true /\ fst run2 = true /\
  exists table1 table2,
    snd run1 = Some table1 /\ snd run2 = Some table2 /\
    List.length table1 = 4%nat /\ List.length table2 = 8%nat /\
    ~ Permutation table1 table2.
Proof.
  cbv zeta. split; [reflexivity |]. split; [reflexivity |].
  eexists. eexists. split; [reflexivity |]. split; [reflexivity |].
  split; [reflexivity |]. split; [reflexivity |].
  intros HP. apply Permutation_length in HP. discriminate HP.
Qed.

(** C2 (the code at the failing inputs).  First, the persisted table holds
    the rows of 2024-01-02 and 2024-01-03 and the run recomputes both
    dates: the table written still holds the old rows of 2024-01-02, four
    rows for that date where the run computed two.  Second, the persisted
    table holds 2024-01-02 only and the run computes 2024-01-03 only: the
    table written has lost the rows of 2024-01-02. *)
Theorem upsert_by_date_misses :
  (exists table new_rows,
      FloorsheetDateSummarizer.save_date_summaries sample_cutoff
        (FloorsheetDateSummarizer.summarize_by_date [tx1; tx2; tx4])
        (Some (rollup_of [tx1; tx4])) = (true, Some table) /\
      In ("2024-01-02", new_rows)
         (FloorsheetDateSummarizer.summarize_by_date [tx1; tx2; tx4]) /\
      List.length new_rows = 2%nat /\
      List.length (rows_of_date "2024-01-02" table) = 4%nat /\
      ~ Permutation (rows_of_date "2024-01-02" table) new_rows) /\
  (exists table,
      FloorsheetDateSummarizer.save_date_summaries sample_cutoff
        (FloorsheetDateSummarizer.summarize_by_date [tx4])
        (Some (rollup_of [tx1; tx2])) = (true, Some table) /\
      List.length
        (rows_of_date "2024-01-02"
           (retain FloorsheetDateSummarizer.row_date sample_cutoff
              (rollup_of [tx1; tx2]))) = 2%nat /\
      rows_of_date "2024-01-02" table = []).
Proof.
  split.
  - eexists. eexists. split; [reflexivity |].
    split; [left; reflexivity |].
    split; [reflexivity |]. split; [reflexivity |].
    intros HP. apply Permutation_length in HP. discriminate HP.
  - eexists. split; [reflexivity |]. split; reflexivity.
Qed.

(** ** The rollups produce rows *)

Lemma Forall2_nonempty {A B : Type} (P : A -> B -> Prop) (l : list A)
    (l' : list B) :
  Forall2 P l l' -> l <> [] -> l' <> [].
Proof. intros H Hne. destruct H; [contradiction | discriminate]. Qed.

Lemma date_aggs_nonempty (d : string) (data : list Transaction) :
  data <> [] -> FloorsheetDateSummarizer.broker_stock_aggs d data <> [].
Proof.
  destruct data as [| t data]; [contradiction |]. intros _ E.
  destruct (broker_stock_aggs_inv d (t :: data)) as [_ HB].
  specialize (HB (buyer_id t, symbol t)).
  rewrite E in HB. apply HB. exists t. split; [now left | reflexivity].
Qed.

(** A non-empty raw table yields a non-empty dict of per-date frames. *)
Lemma summarize_by_date_nonempty (df : list Transaction) :
  df <> [] -> FloorsheetDateSummarizer.summarize_by_date df <> [].
Proof.
  destruct df as [| t df]; [contradiction |]. intros _.
  unfold FloorsheetDateSummarizer.summarize_by_date,
    FloorsheetDateSummarizer.summarize_by_date_try.
  cbn [map unique FloorsheetDateSummarizer.summarize_dates].
  set (data := filter (fun r => String.eqb (date r) (date t)) (t :: df)).
  assert (Hd : data <> []).
  { unfold data. simpl. rewrite String.eqb_refl. discriminate. }
  destruct (date_frame_some (date t) data) as [rows [Er HR]].
  rewrite Er.
  destruct (summarize_dates_some (t :: df)
              (filter (fun y => negb (String.eqb y (date t)))
                 (unique (map date df)))) as [rest [E _]].
  rewrite E. simpl.
  destruct rows as [| r rows]; [| discriminate].
  exfalso. apply (Forall2_nonempty _ _ _ HR); [| reflexivity].
  intros Em. apply map_eq_nil in Em.
  now apply (date_aggs_nonempty (date t)) in Hd.
Qed.

(** A non-empty date rollup table yields a non-empty global frame. *)
Lemma aggregate_nonempty (df : list FloorsheetDateSummarizer.Row) :
  df <> [] -> FloorsheetSummarizer.aggregate_broker_stock_data df <> [].
Proof.
  intros Hne. apply (Forall2_nonempty _ _ _ (aggregate_rows df Hne)).
  destruct df as [| r df]; [contradiction |].
  destruct (global_aggs_inv (r :: df)) as [_ [HK _]].
  intros Em. apply map_eq_nil in Em.
  specialize (HK (FloorsheetSummarizer.row_key r)).
  rewrite Em in HK. apply HK. now left.
Qed.

(** * Further properties *)

(** ** The raw store: what a save leaves on disk *)

Lemma filter_keeps_keys_distinct {A K : Type} (keep : A -> bool)
    (key_of : A -> K) (rows : list A) (ND : NoDup (map key_of rows)) :
  NoDup (map key_of (filter keep rows)).
Proof.
  revert ND. induction rows as [| a rows IH]; simpl; intros ND;
    [constructor |].
  inversion ND as [| ? ? Hn ND']; subst.
  destruct (keep a); simpl; [| auto].
  constructor; [| auto].
  intros Hin. apply Hn. apply in_map_iff in Hin as [x [Ex Hx]].
  apply filter_In in Hx as [Hx _]. rewrite <- Ex. now apply in_map.
Qed.


(** The branch taken when there is no file to append to: the retained
    rows of the batch are written. *)
Lemma save_without_file (c : string) (df : list Transaction)
    (f : option (list Transaction)) (app : bool) :
  (if app then f else None) = None ->
  retain date c df <> [] ->
  FloorsheetDownloader.save_to_parquet c df f app =
  (true, Some (retain date c df)).
Proof.
  intros Hf Hne. unfold FloorsheetDownloader.save_to_parquet.
  destruct df as [| t df]; [now elim Hne |]. rewrite Hf.
  unfold FloorsheetDownloader.len.
  destruct (_ >? 0) eqn:E.
  - destruct (retain date c (t :: df)); [now elim Hne | reflexivity].
  - f_equal. f_equal. symmetry. apply filter_length_eq.
    pose proof (filter_length_le (fun r => str_ge (date r) c) (t :: df)).
    unfold retain in E. lia.
Qed.

(** A batch whose keys are all on disk has no new record. *)
Lemma new_records_known (df existing_df : list Transaction) :
  (forall r, In r df ->
             In (FloorsheetDownloader.key r)
                (map FloorsheetDownloader.key existing_df)) ->
  FloorsheetDownloader.new_records df existing_df = [].
Proof.
  intros Hkeys. apply filter_none. intros r Hr.
  apply negb_false_iff, str_mem_In. now apply Hkeys.
Qed.

(** With no file on disk, or when not appending, a batch that keeps some
    row under retention is written as exactly its retained rows, so the new
    file holds no row older than the cutoff. *)
Theorem save_new_file_retained (c : string) (df : list Transaction)
    (output_file : option (list Transaction)) :
  retain date c df <> [] ->
  FloorsheetDownloader.save_to_parquet c df None true =
    (true, Some (retain date c df)) /\
  FloorsheetDownloader.save_to_parquet c df output_file false =
    (true, Some (retain date c df)) /\
  Forall (fun r => str_ge (date r) c = true) (retain date c df).
Proof.
  intros Hne.
  split; [now apply save_without_file |].
  split; [now apply save_without_file |].
  apply (retain_all_ge date).
Qed.

Lemma save_new_file_retained_witness :
  retain date sample_cutoff [tx_old; tx1] <> [] /\
  FloorsheetDownloader.save_to_parquet sample_cutoff [tx_old; tx1] None true =
    (true, Some (retain date sample_cutoff [tx_old; tx1])).
Proof.
  split; [discriminate |].
  apply (save_new_file_retained sample_cutoff [tx_old; tx1] None).
  discriminate.
Defined.

(** The store keeps its keys distinct: when the keys of the file on disk
    are distinct and the keys of the batch are distinct, the keys of the
    file after the save are distinct. *)
Theorem save_keeps_keys_distinct (c : string)
    (df existing_df0 : list Transaction) :
  df <> [] ->
  NoDup (map FloorsheetDownloader.key existing_df0) ->
  NoDup (map FloorsheetDownloader.key df) ->
  exists table,
    FloorsheetDownloader.save_to_parquet c df (Some existing_df0) true =
      (true, Some table) /\
    NoDup (map FloorsheetDownloader.key table).
Proof.
  intros Hne NDe NDd. eexists. split; [now apply save_to_parquet_merge |].
  unfold FloorsheetDownloader.dedup_merge. rewrite map_app.
  apply NoDup_app.
  - now apply filter_keeps_keys_distinct.
  - unfold FloorsheetDownloader.new_records. now apply filter_keeps_keys_distinct.
  - intros k Hk Hin. apply in_map_iff in Hin as [r [Ek Hr]].
    apply new_records_In in Hr as [_ Hn]. apply Hn. now rewrite Ek.
Qed.

Lemma save_keeps_keys_distinct_witness :
  exists table,
    FloorsheetDownloader.save_to_parquet sample_cutoff [tx2_refetched; tx3]
      (Some [tx1; tx2]) true = (true, Some table) /\
    NoDup (map FloorsheetDownloader.key table).
Proof.
  apply save_keeps_keys_distinct; [discriminate | |];
    repeat (constructor; [simpl; intuition discriminate |]); constructor.
Defined.

(** Saving trades that are all stored already is a successful no-op: when
    every row on disk is inside the retention window and every key of the
    batch is a key on disk, the file is left exactly as it was. *)
Theorem save_known_batch_noop (c : string)
    (df existing_df0 : list Transaction) :
  df <> [] ->
  Forall (fun r => str_ge (date r) c = true) existing_df0 ->
  (forall r, In r df ->
             In (FloorsheetDownloader.key r)
                (map FloorsheetDownloader.key existing_df0)) ->
  FloorsheetDownloader.save_to_parquet c df (Some existing_df0) true =
  (true, Some existing_df0).
Proof.
  intros Hne Hall Hkeys. rewrite save_to_parquet_merge by assumption.
  unfold FloorsheetDownloader.dedup_merge, retain.
  rewrite (filter_all _ _ Hall), (new_records_known df existing_df0 Hkeys).
  now rewrite app_nil_r.
Qed.

Lemma save_known_batch_noop_witness :
  FloorsheetDownloader.save_to_parquet sample_cutoff [tx2_refetched]
    (Some [tx1; tx2]) true = (true, Some [tx1; tx2]).
Proof.
  apply save_known_batch_noop.
  - discriminate.
  - repeat constructor.
  - intros r [<- | []]. simpl. auto.
Defined.

(** Saving the same batch a second time changes nothing, provided the
    whole batch is inside the retention window: the first save creates the
    file with the batch, the second leaves that file as it is. *)
Theorem save_twice_same_file (c : string) (df : list Transaction) :
  df <> [] ->
  Forall (fun r => str_ge (date r) c = true) df ->
  FloorsheetDownloader.save_to_parquet c df None true = (true, Some df) /\
  FloorsheetDownloader.save_to_parquet c df (Some df) true = (true, Some df).
Proof.
  intros Hne Hall.
  assert (Hr : retain date c df = df) by now apply filter_all.
  split.
  - rewrite <- Hr at 2. apply save_without_file; [reflexivity |].
    now rewrite Hr.
  - rewrite save_to_parquet_merge by assumption.
    unfold FloorsheetDownloader.dedup_merge. rewrite Hr.
    rewrite new_records_known; [now rewrite app_nil_r |].
    intros r Hin. now apply in_map.
Qed.

Lemma save_twice_same_file_witness :
  FloorsheetDownloader.save_to_parquet sample_cutoff [tx1; tx2] None true =
    (true, Some [tx1; tx2]) /\
  FloorsheetDownloader.save_to_parquet sample_cutoff [tx1; tx2]
    (Some [tx1; tx2]) true = (true, Some [tx1; tx2]).
Proof.
  apply save_twice_same_file; [discriminate | repeat constructor].
Defined.


(** ** Sums over the groups of a partition *)

Section PartitionSums.
Context {M : Type}.
Variable zero : M.
Variable add : M -> M -> M.
Hypothesis add_0_l : forall x, add zero x = x.
Hypothesis add_assoc : forall x y z, add x (add y z) = add (add x y) z.
Hypothesis add_comm : forall x y, add x y = add y x.

Context {R K : Type}.
Variable eqb : K -> K -> bool.
Hypothesis eqb_eq : forall a b, eqb a b = true <-> a = b.
Variable key : R -> K.
Variable val : R -> M.

Lemma msum_zero (ks : list K) :
  fold_right add zero (map (fun _ => zero) ks) = zero.
Proof. induction ks as [| k ks IH]; simpl; [reflexivity |]. now rewrite IH. Qed.

Lemma msum_add (f g : K -> M) (ks : list K) :
  fold_right add zero (map (fun k => add (f k) (g k)) ks) =
  add (fold_right add zero (map f ks)) (fold_right add zero (map g ks)).
Proof.
  induction ks as [| k ks IH]; simpl; [now rewrite add_0_l |].
  rewrite IH, !add_assoc. f_equal.
  rewrite <- !add_assoc. f_equal. apply add_comm.
Qed.

Lemma msum_absent (a : K) (c : M) (ks : list K) :
  ~ In a ks ->
  fold_right add zero (map (fun k => if eqb a k then c else zero) ks) = zero.
Proof.
  induction ks as [| k ks IH]; simpl; intros Hn; [reflexivity |].
  destruct (eqb a k) eqn:E.
  - apply eqb_eq in E. subst k. tauto.
  - rewrite add_0_l. apply IH. tauto.
Qed.

Lemma msum_single (a : K) (c : M) (ks : list K) :
  NoDup ks -> In a ks ->
  fold_right add zero (map (fun k => if eqb a k then c else zero) ks) = c.
Proof.
  induction ks as [| k ks IH]; simpl; [tauto |].
  intros ND Hin. inversion ND as [| ? ? Hn ND']; subst.
  destruct (eqb a k) eqn:E.
  - apply eqb_eq in E. subst k.
    rewrite msum_absent by assumption. rewrite add_comm. apply add_0_l.
  - rewrite add_0_l. apply IH; [assumption |].
    destruct Hin as [-> | Hin]; [| assumption].
    rewrite (proj2 (eqb_eq a a) eq_refl) in E. discriminate.
Qed.

(** Summing, over distinct keys [ks] that satisfy [p], the sums of the rows
    of each key gives the sum of the rows whose key satisfies [p], as long
    as [ks] holds the key of every such row. *)
Lemma msum_partition (p : K -> bool) (ks : list K) (data : list R) :
  NoDup ks ->
  (forall k, In k ks -> p k = true) ->
  (forall r, In r data -> p (key r) = true -> In (key r) ks) ->
  fold_right add zero
    (map (fun k =>
            fold_right add zero
              (map val (filter (fun r => eqb (key r) k) data))) ks) =
  fold_right add zero (map val (filter (fun r => p (key r)) data)).
Proof.
  intros ND Hp. induction data as [| r data IH]; intros Hc.
  - simpl. apply msum_zero.
  - simpl filter.
    rewrite (map_ext
               (fun k => fold_right add zero
                  (map val (if eqb (key r) k
                            then r :: filter (fun r0 => eqb (key r0) k) data
                            else filter (fun r0 => eqb (key r0) k) data)))
               (fun k => add (if eqb (key r) k then val r else zero)
                  (fold_right add zero
                     (map val (filter (fun r0 => eqb (key r0) k) data))))).
    + rewrite msum_add, IH.
      * destruct (p (key r)) eqn:Ep.
        -- simpl. f_equal. apply msum_single; [assumption |].
           apply Hc; [now left | assumption].
        -- rewrite msum_absent; [apply add_0_l |].
           intros Hin. apply Hp in Hin. congruence.
      * intros r' Hr'. apply Hc. now right.
    + intros k. destruct (eqb (key r) k); simpl; [reflexivity |].
      now rewrite add_0_l.
Qed.
End PartitionSums.

(** ** The grouped frame is sorted by key, one row per key *)

Lemma insert_key_sorted (a : gkey) (l : list gkey) :
  StronglySorted (fun x y => gkey_compare x y = Lt) l ->
  StronglySorted (fun x y => gkey_compare x y = Lt) (insert_key a l).
Proof.
  induction 1 as [| x l HS IH HF]; simpl.
  - repeat constructor.
  - destruct (gkey_compare a x) eqn:E.
    + now constructor.
    + constructor; [now constructor |].
      constructor; [assumption |].
      eapply Forall_impl; [| exact HF]. intros y Hy.
      eapply gkey_compare_lt_trans; eassumption.
    + constructor; [assumption |].
      apply Forall_forall. intros y Hy. apply insert_key_In in Hy as [-> | Hy].
      * now apply gkey_compare_gt_lt.
      * rewrite Forall_forall in HF. now apply HF.
Qed.

Lemma group_keys_sorted (l : list gkey) :
  StronglySorted (fun x y => gkey_compare x y = Lt) (group_keys l).
Proof.
  unfold group_keys. induction l as [| a l IH]; simpl.
  - constructor.
  - now apply insert_key_sorted.
Qed.

Lemma group_keys_NoDup (l : list gkey) : NoDup (group_keys l).
Proof.
  induction (group_keys_sorted l) as [| x ks _ IH HF]; constructor.
  - intros Hin. rewrite Forall_forall in HF. apply HF in Hin.
    rewrite gkey_compare_refl in Hin. discriminate.
  - assumption.
Qed.

(** The model of [groupby] returns its rows in strictly increasing key
    order, one row for each key that occurs in the frame. *)
Lemma groupby_sum_sorted {R : Type} (key : R -> gkey) (qty : R -> Z)
    (amt : R -> float) (df : list R) :
  StronglySorted (fun x y => gkey_compare x y = Lt)
    (map group_key (groupby_sum key qty amt df)) /\
  NoDup (map group_key (groupby_sum key qty amt df)) /\
  (forall k, In k (map group_key (groupby_sum key qty amt df)) <->
             In k (map key df)).
Proof.
  rewrite groupby_sum_keys. split; [apply group_keys_sorted |].
  split; [apply group_keys_NoDup | intros k; apply group_keys_In].
Qed.

(** ** The per-date fold holds the sums of each pair *)

Section DateFoldSums.
Import FloorsheetDateSummarizer.

Lemma key_eqb_neq (a b : string * string) : a <> b -> key_eqb a b = false.
Proof.
  intros H. destruct (key_eqb a b) eqn:E; [| reflexivity].
  apply key_eqb_eq in E. contradiction.
Qed.

Lemma groups_of_pair_snoc_other (k : string * string) (gs : list Group)
    (g : Group) :
  group_pair g <> k -> groups_of_pair k (gs ++ [g]) = groups_of_pair k gs.
Proof.
  intros H. unfold groups_of_pair. rewrite filter_snoc.
  now rewrite (key_eqb_neq _ _ H).
Qed.

Lemma groups_of_pair_snoc_same (gs : list Group) (g : Group) :
  groups_of_pair (group_pair g) (gs ++ [g]) =
  groups_of_pair (group_pair g) gs ++ [g].
Proof.
  unfold groups_of_pair. rewrite filter_snoc.
  now rewrite (proj2 (key_eqb_eq _ _) eq_refl).
Qed.

Lemma groups_of_pair_absent (k : string * string) (gs : list Group) :
  ~ In k (map group_pair gs) -> groups_of_pair k gs = [].
Proof.
  intros H. apply filter_none. intros g Hg. apply key_eqb_neq.
  intros E. apply H. rewrite <- E. now apply in_map.
Qed.

Lemma groups_of_pair_present (k : string * string) (gs : list Group) :
  In k (map group_pair gs) -> groups_of_pair k gs <> [].
Proof.
  intros H E. apply in_map_iff in H as [g [Eg Hg]].
  assert (Hin : In g (groups_of_pair k gs)).
  { apply filter_In. split; [assumption | now apply key_eqb_eq]. }
  rewrite E in Hin. contradiction.
Qed.

(** Once a pair has a buy group, its sell_amount starts from the literal 0,
    however many buy groups follow. *)
Lemma sell_amounts_bought (bg extra : list Group) (l : list float) :
  bg <> [] -> sell_amounts (bg ++ extra) l = sell_amounts bg l.
Proof. destruct bg as [| b bg]; [contradiction | reflexivity]. Qed.

(** One more [+=] of a sell group. *)
Lemma sell_amounts_snoc (bg sg : list Group) (g : Group) :
  (bg = [] -> sg <> []) ->
  sell_amounts bg (map g_amount (sg ++ [g])) =
  fadd (sell_amounts bg (map g_amount sg)) (g_amount g).
Proof.
  destruct bg as [| b bg]; simpl; intros H.
  - apply fold_amounts_snoc. now apply H.
  - now rewrite map_app, fold_left_app.
Qed.

Variable d : string.

Lemma add_buy_sums (bs : list Group) (aggs : Aggs) (g : Group) :
  date_fold_inv d bs [] aggs ->
  date_fold_inv d (bs ++ [g]) [] (add_buy d aggs g).
Proof.
  intros [ND [HK HF]]. unfold add_buy.
  change (g_id g, g_symbol g) with (group_pair g).
  split; [| split].
  - now apply (upsert_NoDup key_eqb key_eqb_eq).
  - intros k. rewrite (upsert_keys key_eqb key_eqb_eq), HK.
    rewrite map_app, in_app_iff. simpl. intuition.
  - apply (upsert_Forall_step key_eqb key_eqb_eq) with (2 := HF);
      [assumption | | |].
    + intros p _ Hne [Hk [Hd Hs]]. repeat split; try assumption.
      rewrite Hs. unfold group_sums.
      rewrite groups_of_pair_snoc_other; [reflexivity | congruence].
    + intros Hn. simpl. repeat split.
      unfold group_sums. rewrite groups_of_pair_snoc_same.
      rewrite groups_of_pair_absent.
      * unfold sumZ. simpl. now rewrite Z.add_0_r.
      * rewrite HK in Hn. tauto.
    + intros v Hin [Hk [Hd Hs]].
      assert (HG : groups_of_pair (group_pair g) bs <> []).
      { apply groups_of_pair_present.
        apply (in_map fst) in Hin. apply HK in Hin as [H | H];
          [exact H | destruct H]. }
      simpl in *. repeat split; try assumption.
      rewrite Hs. unfold group_sums. rewrite groups_of_pair_snoc_same.
      rewrite (sell_amounts_bought _ [g] _ HG). simpl.
      now rewrite sumZ_map_snoc, (fold_amounts_snoc _ _ _ HG).
Qed.

Lemma add_sell_sums (bs ss : list Group) (aggs : Aggs) (g : Group) :
  date_fold_inv d bs ss aggs ->
  date_fold_inv d bs (ss ++ [g]) (add_sell d aggs g).
Proof.
  intros [ND [HK HF]]. unfold add_sell.
  change (g_id g, g_symbol g) with (group_pair g).
  split; [| split].
  - now apply (upsert_NoDup key_eqb key_eqb_eq).
  - intros k. rewrite (upsert_keys key_eqb key_eqb_eq), HK.
    rewrite map_app, in_app_iff. simpl. intuition.
  - apply (upsert_Forall_step key_eqb key_eqb_eq) with (2 := HF);
      [assumption | | |].
    + intros p _ Hne [Hk [Hd Hs]]. repeat split; try assumption.
      rewrite Hs. unfold group_sums.
      rewrite (groups_of_pair_snoc_other (fst p) ss);
        [reflexivity | congruence].
    + intros Hn. simpl. repeat split.
      unfold group_sums. rewrite groups_of_pair_snoc_same.
      rewrite !groups_of_pair_absent.
      * unfold sumZ. simpl. now rewrite Z.add_0_r.
      * rewrite HK in Hn. tauto.
      * rewrite HK in Hn. tauto.
    + intros v Hin [Hk [Hd Hs]].
      assert (HS : groups_of_pair (group_pair g) bs = [] ->
                   groups_of_pair (group_pair g) ss <> []).
      { intros Eb. apply groups_of_pair_present.
        apply (in_map fst) in Hin. apply HK in Hin as [H | H];
          [| exact H].
        apply groups_of_pair_present in H. contradiction. }
      simpl in *. repeat split; try assumption.
      rewrite Hs. unfold group_sums. rewrite groups_of_pair_snoc_same.
      rewrite (sell_amounts_snoc _ _ g HS). simpl.
      now rewrite sumZ_map_snoc.
Qed.

Lemma buy_loop_sums (bs : list Group) :
  date_fold_inv d bs [] (fold_left (add_buy d) bs []).
Proof.
  induction bs as [| g bs IH] using rev_ind.
  - simpl. repeat split; try tauto; try constructor.
  - rewrite fold_left_app. simpl. now apply add_buy_sums.
Qed.

Lemma sell_loop_sums (bs ss : list Group) (aggs : Aggs) :
  date_fold_inv d bs [] aggs ->
  date_fold_inv d bs ss (fold_left (add_sell d) ss aggs).
Proof.
  intros H0. induction ss as [| g ss IH] using rev_ind.
  - exact H0.
  - rewrite fold_left_app. simpl. now apply add_sell_sums.
Qed.

Lemma broker_stock_aggs_sums (data : list Transaction) :
  date_fold_inv d (groupby_sum buy_key quantity amount data)
    (groupby_sum sell_key quantity amount data)
    (broker_stock_aggs d data).
Proof.
  unfold broker_stock_aggs. apply sell_loop_sums, buy_loop_sums.
Qed.

End DateFoldSums.

Lemma filter_map_comm {A B : Type} (f : B -> bool) (g : A -> B)
    (l : list A) :
  filter f (map g l) = map g (filter (fun a => f (g a)) l).
Proof.
  induction l as [| a l IH]; simpl; [reflexivity |].
  destruct (f (g a)); simpl; now rewrite IH.
Qed.

Lemma filter_true {A : Type} (l : list A) : filter (fun _ => true) l = l.
Proof. induction l as [| a l IH]; simpl; [reflexivity | now rewrite IH]. Qed.

(** The groups of a pair hold, together, the integer sum over the rows of
    the pair. *)
Lemma groups_of_pair_sums {R : Type} (key : R -> gkey) (qty : R -> Z)
    (amt : R -> float) (data : list R) (k : string * string) :
  sumZ (map g_quantity (groups_of_pair k (groupby_sum key qty amt data))) =
  sumZ (map qty
          (filter (fun r => FloorsheetDateSummarizer.key_eqb
                              (pair_of_gkey (key r)) k) data)).
Proof.
  set (p := fun kk => FloorsheetDateSummarizer.key_eqb (pair_of_gkey kk) k).
  assert (Hg : groups_of_pair k (groupby_sum key qty amt data) =
               map (fun kk =>
                      let '(i, n, s) := kk in
                      mkGroup i n s (sumZ (map qty (group_of key data kk)))
                        (group_sum (map amt (group_of key data kk))))
                   (filter p (group_keys (map key data)))).
  { unfold groups_of_pair, groupby_sum. rewrite filter_map_comm.
    f_equal. apply filter_ext. now intros [[i n] s]. }
  assert (ND : NoDup (filter p (group_keys (map key data))))
    by apply NoDup_filter, group_keys_NoDup.
  assert (Hp : forall kk, In kk (filter p (group_keys (map key data))) ->
                          p kk = true)
    by (intros kk Hkk; now apply filter_In in Hkk).
  assert (Hc : forall r, In r data -> p (key r) = true ->
                         In (key r) (filter p (group_keys (map key data)))).
  { intros r Hr Hpr. apply filter_In. split; [| assumption].
    apply group_keys_In. now apply in_map. }
  rewrite Hg, !map_map.
  rewrite (map_ext _ (fun kk => sumZ (map qty (group_of key data kk))))
    by now intros [[i n] s].
  exact (msum_partition 0 Z.add Z.add_0_l Z.add_assoc Z.add_comm
           gkey_eqb gkey_eqb_eq key qty p _ data ND Hp Hc).
Qed.

Lemma group_sums_pair_sums (data : list Transaction) (k : string * string) :
  group_sums k
    (groupby_sum FloorsheetDateSummarizer.buy_key quantity amount data)
    (groupby_sum FloorsheetDateSummarizer.sell_key quantity amount data) =
  pair_sums data k.
Proof.
  unfold group_sums, pair_sums. cbv zeta.
  rewrite (groups_of_pair_sums FloorsheetDateSummarizer.buy_key quantity
             amount data k).
  rewrite (groups_of_pair_sums FloorsheetDateSummarizer.sell_key quantity
             amount data k).
  reflexivity.
Qed.

Lemma group_pair_In {R : Type} (key : R -> gkey) (qty : R -> Z)
    (amt : R -> float) (data : list R) (k : string * string) :
  In k (map group_pair (groupby_sum key qty amt data)) <->
  exists r, In r data /\ pair_of_gkey (key r) = k.
Proof.
  rewrite in_map_iff. split.
  - intros [g [Ek Hg]].
    assert (Hin : In (group_key g) (map key data)).
    { apply (groupby_sum_In_key key qty amt). now apply in_map. }
    apply in_map_iff in Hin as [r [Er Hr]].
    exists r. split; [assumption |]. now rewrite Er, <- Ek.
  - intros [r [Hr Ek]].
    assert (Hin : In (key r) (map group_key (groupby_sum key qty amt data))).
    { apply groupby_sum_In_key. now apply in_map. }
    apply in_map_iff in Hin as [g [Eg Hg]].
    exists g. split; [| assumption]. now rewrite <- Ek, <- Eg.
Qed.

Lemma row_of_entries (es : list FloorsheetDateSummarizer.Entry)
    (rows : list FloorsheetDateSummarizer.Row) :
  Forall2 row_of es rows -> map FloorsheetDateSummarizer.entry rows = es.
Proof.
  induction 1 as [| e row es rows [Ee _] _ IH]; simpl; [reflexivity |].
  now rewrite Ee, IH.
Qed.

Lemma date_frame_entries (d : string) (data : list Transaction)
    (rows : list FloorsheetDateSummarizer.Row) :
  FloorsheetDateSummarizer.date_frame d data = Some rows ->
  map FloorsheetDateSummarizer.entry rows =
  map snd (FloorsheetDateSummarizer.broker_stock_aggs d data).
Proof.
  intros E. destruct (date_frame_some d data) as [rows' [E' HR]].
  rewrite E in E'. injection E' as <-. now apply row_of_entries.
Qed.

(** The entries of the frame of one date: distinct keys, one for each pair
    that buys or sells, each holding its date and the sums of its pair. *)
Lemma date_frame_spec (d : string) (data : list Transaction) :
  exists rows,
    FloorsheetDateSummarizer.date_frame d data = Some rows /\
    NoDup (map entry_key (map FloorsheetDateSummarizer.entry rows)) /\
    (forall k, In k (map entry_key (map FloorsheetDateSummarizer.entry rows))
               <-> bought data k \/ sold data k) /\
    Forall (fun e => FloorsheetDateSummarizer.e_date e = d /\
                     FloorsheetDateSummarizer.sums e =
                     pair_sums data (entry_key e))
           (map FloorsheetDateSummarizer.entry rows).
Proof.
  destruct (date_frame_some d data) as [rows [E _]].
  exists rows. split; [assumption |].
  rewrite (date_frame_entries d data rows E).
  destruct (broker_stock_aggs_sums d data) as [ND [HK HF]].
  assert (Hkeys : map entry_key
                    (map snd (FloorsheetDateSummarizer.broker_stock_aggs d data))
                  = map fst (FloorsheetDateSummarizer.broker_stock_aggs d data)).
  { clear ND HK. induction HF as [| p aggs [Hk _] _ IH]; simpl;
      [reflexivity | now rewrite IH, Hk]. }
  rewrite Hkeys. split; [assumption |]. split.
  - intros k. rewrite HK, !group_pair_In. unfold bought, sold. reflexivity.
  - apply Forall_forall. intros e He.
    apply in_map_iff in He as [p [<- Hp]].
    rewrite Forall_forall in HF. destruct (HF p Hp) as [Hk [Hd Hs]].
    split; [assumption |].
    now rewrite Hs, group_sums_pair_sums, Hk.
Qed.

Lemma sumZ_map_sub {A : Type} (f g h : A -> Z) (l : list A) :
  Forall (fun a => f a = g a - h a) l ->
  sumZ (map f l) = sumZ (map g l) - sumZ (map h l).
Proof.
  unfold sumZ. induction 1 as [| a l Ha _ IH]; simpl; lia.
Qed.

(** Over distinct keys that cover every row, the per-key sums add up to
    the sum over all rows. *)
Lemma msum_total {M R K : Type} (zero : M) (add : M -> M -> M)
    (add_0_l : forall x, add zero x = x)
    (add_assoc : forall x y z, add x (add y z) = add (add x y) z)
    (add_comm : forall x y, add x y = add y x)
    (eqb : K -> K -> bool) (eqb_eq : forall a b, eqb a b = true <-> a = b)
    (key : R -> K) (val : R -> M) (ks : list K) (data : list R) :
  NoDup ks ->
  (forall r, In r data -> In (key r) ks) ->
  fold_right add zero
    (map (fun k =>
            fold_right add zero
              (map val (filter (fun r => eqb (key r) k) data))) ks) =
  fold_right add zero (map val data).
Proof.
  intros ND Hc.
  rewrite (msum_partition zero add add_0_l add_assoc add_comm eqb eqb_eq
             key val (fun _ => true) ks data ND); auto.
  now rewrite filter_true.
Qed.

(** ** Results on the per-date fold *)

Section DateFoldResults.
Import FloorsheetDateSummarizer.

(** The frame of one date has exactly one row for each (broker_id, symbol)
    pair that buys or sells in a record of the date, and no other row. *)
Theorem date_frame_one_row_per_pair (d : string)
    (date_data : list Transaction) :
  exists rows,
    date_frame d date_data = Some rows /\
    NoDup (map (fun r => entry_key (entry r)) rows) /\
    (forall k, In k (map (fun r => entry_key (entry r)) rows) <->
               bought date_data k \/ sold date_data k).
Proof.
  destruct (date_frame_spec d date_data) as [rows [E [ND [HK _]]]].
  exists rows. rewrite map_map in ND, HK. auto.
Qed.

(** Every row of the frame of one date carries that date.  Its
    buy_quantity is the sum of quantity over the records in which its pair
    is the buyer, its sell_quantity the sum over those in which it is the
    seller.  Its buy_amount is the float sum, in the order of the grouped
    frame, of the grouped amounts of the buy groups of its pair; its
    sell_amount is the same over the sell groups, starting from the literal
    0 when the pair also bought. *)
Theorem date_frame_pair_sums (d : string) (date_data : list Transaction) :
  exists rows,
    date_frame d date_data = Some rows /\
    Forall (fun r =>
              row_date r = d /\
              sums (entry r) = pair_sums date_data (entry_key (entry r)))
           rows.
Proof.
  destruct (date_frame_spec d date_data) as [rows [E [_ [_ HF]]]].
  exists rows. split; [assumption |].
  apply Forall_forall. intros r Hr. rewrite Forall_forall in HF.
  apply (HF (entry r)). now apply in_map.
Qed.

(** Every trade is counted once on each side: over the rows of the frame
    of one date, buy_quantity and sell_quantity both add up to the total
    quantity of the records, and net_quantity adds up to zero. *)
Theorem date_frame_conservation (d : string) (date_data : list Transaction) :
  exists rows,
    date_frame d date_data = Some rows /\
    sumZ (map (fun r => buy_quantity (sums (entry r))) rows) =
      sumZ (map quantity date_data) /\
    sumZ (map (fun r => sell_quantity (sums (entry r))) rows) =
      sumZ (map quantity date_data) /\
    sumZ (map (fun r => net_quantity (metrics r)) rows) = 0.
Proof.
  destruct (date_frame_spec d date_data) as [rows [E [ND [HK HF]]]].
  exists rows. split; [assumption |].
  rewrite Forall_forall in HF.
  assert (Hs : forall (proj : Sums -> Z) r, In r rows ->
             proj (sums (entry r)) =
             proj (pair_sums date_data (entry_key (entry r)))).
  { intros proj r Hr. f_equal. apply (HF (entry r)). now apply in_map. }
  rewrite map_map in ND.
  assert (Hb : forall t, In t date_data ->
             In (buyer_pair t) (map (fun r => entry_key (entry r)) rows)).
  { intros t Ht. rewrite <- (map_map entry entry_key). apply HK. left.
    now exists t. }
  assert (Hsl : forall t, In t date_data ->
             In (seller_pair t) (map (fun r => entry_key (entry r)) rows)).
  { intros t Ht. rewrite <- (map_map entry entry_key). apply HK. right.
    now exists t. }
  assert (Ebq : sumZ (map (fun r => buy_quantity (sums (entry r))) rows) =
                sumZ (map quantity date_data)).
  { rewrite (map_ext_in _ _ _ (Hs buy_quantity)). simpl.
    rewrite <- (map_map (fun r => entry_key (entry r))
                  (fun k => sumZ (map quantity (bought_rows k date_data)))).
    now apply (msum_total 0 Z.add Z.add_0_l Z.add_assoc Z.add_comm
                 key_eqb key_eqb_eq buyer_pair quantity). }
  assert (Esq : sumZ (map (fun r => sell_quantity (sums (entry r))) rows) =
                sumZ (map quantity date_data)).
  { rewrite (map_ext_in _ _ _ (Hs sell_quantity)). simpl.
    rewrite <- (map_map (fun r => entry_key (entry r))
                  (fun k => sumZ (map quantity (sold_rows k date_data)))).
    now apply (msum_total 0 Z.add Z.add_0_l Z.add_assoc Z.add_comm
                 key_eqb key_eqb_eq seller_pair quantity). }
  split; [exact Ebq |]. split; [exact Esq |].
  - rewrite (sumZ_map_sub _ (fun r => buy_quantity (sums (entry r)))
               (fun r => sell_quantity (sums (entry r)))).
    + rewrite Ebq, Esq. lia.
    + destruct (date_frame_some d date_data) as [rows' [E' HR]].
      rewrite E in E'. injection E' as <-.
      apply Forall_forall. intros r Hr.
      destruct (Forall2_In_r _ _ _ r HR Hr) as [e [_ [Ee [_ [_ [Hn _]]]]]].
      now rewrite Hn, Ee.
Qed.

End DateFoldResults.

(** ** The dict of per-date frames *)

Lemma unique_In (x : string) (l : list string) : In x (unique l) <-> In x l.
Proof.
  induction l as [| a l IH]; simpl; [reflexivity |].
  rewrite filter_In, IH, negb_true_iff, String.eqb_neq.
  destruct (string_dec x a) as [-> | Hne]; intuition.
Qed.

Lemma unique_NoDup (l : list string) : NoDup (unique l).
Proof.
  induction l as [| a l IH]; simpl; constructor.
  - rewrite filter_In, String.eqb_refl. simpl. intros [_ H]. discriminate.
  - now apply NoDup_filter.
Qed.

Lemma unique_const (x : string) (l : list string) :
  l <> [] -> (forall y, In y l -> y = x) -> unique l = [x].
Proof.
  induction l as [| a l IH]; [contradiction |]. intros _ Hall. simpl.
  rewrite (Hall a) by now left. f_equal.
  apply filter_none. intros y Hy. apply (proj1 (unique_In y l)) in Hy.
  rewrite (Hall y) by now right. now rewrite String.eqb_refl.
Qed.

Lemma summarize_dates_keys (data : list Transaction) (dates : list string) :
  (forall d, In d dates -> In d (map date data)) ->
  exists res,
    FloorsheetDateSummarizer.summarize_dates data dates = Some res /\
    map fst res = dates.
Proof.
  induction dates as [| d ds IH]; intros Hd; simpl.
  - now exists [].
  - destruct IH as [res [E Ek]]; [intros d' Hd'; apply Hd; now right |].
    set (dd := filter (fun r => String.eqb (date r) d) data).
    destruct (date_frame_some d dd) as [rows [Er HR]].
    rewrite Er, E. simpl.
    assert (Hne : rows <> []).
    { apply (Forall2_nonempty _ _ _ HR). intros Em. apply map_eq_nil in Em.
      revert Em. apply date_aggs_nonempty.
      destruct (proj1 (in_map_iff date data d) (Hd d (or_introl eq_refl)))
        as [t [Et Ht]].
      intros Ed. assert (Hin : In t dd).
      { apply filter_In. split; [assumption |]. rewrite Et.
        apply String.eqb_refl. }
      rewrite Ed in Hin. contradiction. }
    destruct rows as [| r rows]; [contradiction |].
    eexists. split; [reflexivity |]. simpl. now rewrite Ek.
Qed.

Lemma summarize_by_date_dates (df : list Transaction) :
  map fst (FloorsheetDateSummarizer.summarize_by_date df) =
  unique (map date df).
Proof.
  unfold FloorsheetDateSummarizer.summarize_by_date,
    FloorsheetDateSummarizer.summarize_by_date_try.
  destruct df as [| t df]; [reflexivity |].
  destruct (summarize_dates_keys (t :: df) (unique (map date (t :: df))))
    as [res [E Ek]]; [intros d; apply unique_In |].
  now rewrite E.
Qed.

Lemma summarize_by_date_own_date (df : list Transaction) :
  Forall (fun p =>
            snd p <> [] /\
            Forall (fun r => FloorsheetDateSummarizer.row_date r = fst p)
                   (snd p))
         (FloorsheetDateSummarizer.summarize_by_date df).
Proof.
  eapply Forall_impl; [| apply summarize_by_date_rows].
  intros p [Hne HR]. split; [assumption |].
  destruct (broker_stock_aggs_sums (fst p)
              (filter (fun r => String.eqb (date r) (fst p)) df))
    as [_ [_ HF]].
  rewrite Forall_forall in HF.
  apply Forall_forall. intros r Hr.
  destruct (Forall2_In_r _ _ _ r HR Hr) as [e [He [Ee _]]].
  apply in_map_iff in He as [q [Eq Hq]].
  destruct (HF q Hq) as [_ [Hd _]].
  unfold FloorsheetDateSummarizer.row_date. now rewrite Ee, <- Eq.
Qed.

(** [summarize_by_date] returns one frame per distinct date of the raw
    table, in order of first appearance; each frame is non-empty and holds
    only rows of its own date. *)
Theorem summarize_by_date_keys (df : list Transaction) :
  map fst (FloorsheetDateSummarizer.summarize_by_date df) =
    unique (map date df) /\
  NoDup (map fst (FloorsheetDateSummarizer.summarize_by_date df)) /\
  Forall (fun p =>
            snd p <> [] /\
            Forall (fun r => FloorsheetDateSummarizer.row_date r = fst p)
                   (snd p))
         (FloorsheetDateSummarizer.summarize_by_date df).
Proof.
  split; [apply summarize_by_date_dates |].
  split; [| apply summarize_by_date_own_date].
  rewrite summarize_by_date_dates. apply unique_NoDup.
Qed.

(** ** Results on the derived metrics *)

Lemma summarize_by_date_try_eq (df : list Transaction) :
  FloorsheetDateSummarizer.summarize_by_date_try df =
  Some (FloorsheetDateSummarizer.summarize_by_date df).
Proof.
  destruct df as [| t df]; [reflexivity |].
  unfold FloorsheetDateSummarizer.summarize_by_date.
  destruct (summarize_by_date_try_some (t :: df)) as [res E]. now rewrite E.
Qed.

Lemma aggregate_try_eq (df : list FloorsheetDateSummarizer.Row) :
  FloorsheetSummarizer.aggregate_try df =
  Some (FloorsheetSummarizer.aggregate_broker_stock_data df).
Proof.
  destruct df as [| r df]; [reflexivity |].
  unfold FloorsheetSummarizer.aggregate_broker_stock_data.
  destruct (aggregate_try_some (r :: df)) as [rows [E _]]. now rewrite E.
Qed.

Lemma aggregate_rows_all (df : list FloorsheetDateSummarizer.Row) :
  Forall2 agg_row_of
    (map snd (FloorsheetSummarizer.broker_stock_aggs df))
    (FloorsheetSummarizer.aggregate_broker_stock_data df).
Proof.
  destruct df as [| r df]; [constructor |].
  apply aggregate_rows. discriminate.
Qed.

(** C5. The derived-metric calculator returns for every set of
    accumulators, and what it returns has avg_buy_price = buy_amount /
    buy_quantity when buy_quantity > 0 and 0 otherwise, avg_sell_price
    likewise on the sell side, net_quantity = buy_quantity - sell_quantity,
    and avg_holding_price = (buy_amount - sell_amount) / net_quantity when
    net_quantity > 0 and 0 otherwise, also for a negative net position (the
    divisions are float divisions by the quantity converted to a float).
    Neither rollup raises.  The per-date rollup returns one non-empty frame
    for each date of the raw table, the global rollup one frame, and these
    frames hold exactly one row for each entry of the fold, in dict order,
    carrying that entry and the metrics the rules give for its
    accumulators. *)
Theorem derived_metrics_rules (raw : list Transaction)
    (date_rows : list FloorsheetDateSummarizer.Row) :
  (forall s, exists m, derived_metrics s = Some m /\ metrics_spec s m) /\
  FloorsheetDateSummarizer.summarize_by_date_try raw =
    Some (FloorsheetDateSummarizer.summarize_by_date raw) /\
  map fst (FloorsheetDateSummarizer.summarize_by_date raw) =
    unique (map date raw) /\
  Forall (fun p =>
            snd p <> [] /\
            Forall2 row_of
              (map snd
                 (FloorsheetDateSummarizer.broker_stock_aggs (fst p)
                    (filter (fun r => String.eqb (date r) (fst p)) raw)))
              (snd p))
         (FloorsheetDateSummarizer.summarize_by_date raw) /\
  FloorsheetSummarizer.aggregate_try date_rows =
    Some (FloorsheetSummarizer.aggregate_broker_stock_data date_rows) /\
  Forall2 agg_row_of
    (map snd (FloorsheetSummarizer.broker_stock_aggs date_rows))
    (FloorsheetSummarizer.aggregate_broker_stock_data date_rows).
Proof.
  split; [exact derived_metrics_total |].
  split; [apply summarize_by_date_try_eq |].
  split; [apply summarize_by_date_dates |].
  split; [apply summarize_by_date_rows |].
  split; [apply aggregate_try_eq | apply aggregate_rows_all].
Qed.

Lemma metrics_zero_price (s : Sums) (m : Metrics) :
  metrics_spec s m -> zero_price_rule s m.
Proof.
  intros [Hb [Hs _]]. unfold zero_price_rule. rewrite Hb, Hs.
  split; intros ->; reflexivity.
Qed.

(** C6 (as amended). The derived-metric computation of both rollups never
    raises: every division is guarded by a positive divisor, so the
    calculator returns for every set of accumulators and both rollups
    return their frames.  In every row produced, avg_buy_price is 0
    whenever buy_quantity is 0 and avg_sell_price is 0 whenever
    sell_quantity is 0. *)
Theorem derived_metrics_guarded (raw : list Transaction)
    (date_rows : list FloorsheetDateSummarizer.Row) :
  (forall s, exists m, derived_metrics s = Some m /\ zero_price_rule s m) /\
  FloorsheetDateSummarizer.summarize_by_date_try raw =
    Some (FloorsheetDateSummarizer.summarize_by_date raw) /\
  FloorsheetSummarizer.aggregate_try date_rows =
    Some (FloorsheetSummarizer.aggregate_broker_stock_data date_rows) /\
  Forall (fun p =>
            Forall (fun r =>
                      zero_price_rule
                        (FloorsheetDateSummarizer.sums
                           (FloorsheetDateSummarizer.entry r))
                        (FloorsheetDateSummarizer.metrics r)) (snd p))
         (FloorsheetDateSummarizer.summarize_by_date raw) /\
  Forall (fun r =>
            zero_price_rule
              (FloorsheetSummarizer.sums (FloorsheetSummarizer.entry r))
              (FloorsheetSummarizer.metrics r))
         (FloorsheetSummarizer.aggregate_broker_stock_data date_rows).
Proof.
  split.
  - intros s. destruct (derived_metrics_total s) as [m [E Hm]].
    exists m. split; [assumption | now apply metrics_zero_price].
  - split; [apply summarize_by_date_try_eq |].
    split; [apply aggregate_try_eq |].
    split.
    + apply (summarize_rows_Forall zero_price_rule), metrics_zero_price.
    + apply (aggregate_rows_Forall zero_price_rule), metrics_zero_price.
Qed.

(** A trade of ten shares for a zero amount gives its buyer a row with
    avg_buy_price 0 and buy_quantity 10: the average price is zero although
    the quantity is not. *)
Lemma zero_price_positive_quantity :
  exists p row,
    In p (FloorsheetDateSummarizer.summarize_by_date [tx_free]) /\
    In row (snd p) /\
    buy_quantity
      (FloorsheetDateSummarizer.sums
         (FloorsheetDateSummarizer.entry row)) = 10 /\
    avg_buy_price (FloorsheetDateSummarizer.metrics row) = fzero /\
    ~ (avg_buy_price (FloorsheetDateSummarizer.metrics row) = fzero <->
       buy_quantity
         (FloorsheetDateSummarizer.sums
            (FloorsheetDateSummarizer.entry row)) = 0).
Proof.
  eexists. eexists. split; [| split].
  - vm_compute. left. reflexivity.
  - simpl. left. reflexivity.
  - split; [reflexivity |]. split; [reflexivity |].
    simpl. intros [H _].
    assert (E : (10 = 0)%Z); [apply H; reflexivity | discriminate E].
Qed.

(** ** The date rollup: what a save writes *)

Section DateRollupSave.
Import FloorsheetDateSummarizer.

Lemma merge_pieces_In (existing_df : list Row)
    (date_summaries : list (string * list Row)) (piece : list Row) :
  In piece (merge_pieces existing_df date_summaries) ->
  (exists p, In p date_summaries /\ piece = snd p) \/
  (exists d, piece = filter (fun r => negb (String.eqb (row_date r) d))
                       existing_df).
Proof.
  unfold merge_pieces. rewrite in_flat_map.
  intros [[d date_df] [Hp Hin]].
  destruct (str_mem d _).
  - destruct (filter _ existing_df) eqn:Ef.
    + destruct Hin as [<- | []]. left. now exists (d, date_df).
    + destruct Hin as [<- | [<- | []]].
      * right. now exists d.
      * left. now exists (d, date_df).
  - destruct Hin as [<- | []]. left. now exists (d, date_df).
Qed.

Lemma merge_pieces_new (existing_df : list Row)
    (date_summaries : list (string * list Row)) (p : string * list Row) :
  In p date_summaries ->
  In (snd p) (merge_pieces existing_df date_summaries).
Proof.
  intros Hp. unfold merge_pieces. apply in_flat_map. exists p.
  split; [assumption |]. destruct p as [d date_df]. simpl.
  destruct (str_mem d _); [| now left].
  destruct (filter _ existing_df); [now left | right; now left].
Qed.

(** A save of a non-empty dict of frames succeeds and writes the
    concatenation of a list of pieces: every new frame is a piece, and
    every piece is a new frame or the retained persisted table without one
    date. *)
Lemma save_date_summaries_pieces (c : string)
    (date_summaries : list (string * list Row))
    (output_file : option (list Row)) :
  date_summaries <> [] ->
  exists pieces,
    save_date_summaries c date_summaries output_file =
      (true, Some (List.concat pieces)) /\
    (forall p, In p date_summaries -> In (snd p) pieces) /\
    (forall piece, In piece pieces ->
       (exists p, In p date_summaries /\ piece = snd p) \/
       (exists existing_df d,
           output_file = Some existing_df /\
           piece = filter (fun r => negb (String.eqb (row_date r) d))
                     (retain row_date c existing_df))).
Proof.
  intros Hne. destruct date_summaries as [| p0 ds]; [contradiction |].
  unfold save_date_summaries.
  assert (Hplain :
    exists pieces,
      (match map snd (p0 :: ds) with
       | [] => (false, output_file)
       | _ => (true, Some (List.concat (map snd (p0 :: ds))))
       end) = (true, Some (List.concat pieces)) /\
      (forall p, In p (p0 :: ds) -> In (snd p) pieces) /\
      (forall piece, In piece pieces ->
                     exists p, In p (p0 :: ds) /\ piece = snd p)).
  { exists (map snd (p0 :: ds)). split; [reflexivity |]. split.
    - intros p Hp. now apply in_map.
    - intros piece Hpiece.
      apply in_map_iff in Hpiece as [p [<- Hp]]. now exists p. }
  destruct output_file as [existing_df0 |].
  - destruct (retain row_date c existing_df0) as [| e0 es] eqn:Er.
    + destruct Hplain as [ps [E [H1 H2]]]. exists ps. split; [exact E |].
      split; [exact H1 |]. intros piece Hpiece. left. now apply H2.
    + pose proof (merge_pieces_new (e0 :: es) (p0 :: ds) p0
                    (or_introl eq_refl)) as Hin0.
      exists (merge_pieces (e0 :: es) (p0 :: ds)).
      split; [| split].
      * destruct (merge_pieces (e0 :: es) (p0 :: ds)); [contradiction |].
        reflexivity.
      * intros p Hp. now apply merge_pieces_new.
      * intros piece Hpiece.
        apply merge_pieces_In in Hpiece as [[p [Hp ->]] | [d ->]].
        -- left. now exists p.
        -- right. exists existing_df0, d. now rewrite Er.
  - destruct Hplain as [ps [E [H1 H2]]]. exists ps. split; [exact E |].
    split; [exact H1 |]. intros piece Hpiece. left. now apply H2.
Qed.

(** A save of a non-empty dict of frames succeeds; the table it writes
    holds every new row, and each of its rows is a new row or a persisted
    row that is inside the retention window. *)
Theorem save_date_summaries_rows (c : string)
    (date_summaries : list (string * list Row))
    (output_file : option (list Row)) :
  date_summaries <> [] ->
  exists table,
    save_date_summaries c date_summaries output_file = (true, Some table) /\
    (forall p r, In p date_summaries -> In r (snd p) -> In r table) /\
    (forall r, In r table ->
       (exists p, In p date_summaries /\ In r (snd p)) \/
       (exists existing_df,
           output_file = Some existing_df /\ In r existing_df /\
           str_ge (row_date r) c = true)).
Proof.
  intros Hne.
  destruct (save_date_summaries_pieces c date_summaries output_file Hne)
    as [pieces [E [Hnew Hall]]].
  exists (List.concat pieces). split; [exact E |]. split.
  - intros p r Hp Hr. apply in_concat. exists (snd p). auto.
  - intros r Hr. apply in_concat in Hr as [piece [Hpiece Hr]].
    destruct (Hall piece Hpiece) as [[p [Hp ->]] | [e [d [Eo ->]]]].
    + left. now exists p.
    + right. exists e. split; [assumption |].
      apply filter_In in Hr as [Hr _]. unfold retain in Hr.
      now apply filter_In in Hr.
Qed.

End DateRollupSave.

Lemma save_date_summaries_rows_witness :
  exists table,
    FloorsheetDateSummarizer.save_date_summaries sample_cutoff
      (FloorsheetDateSummarizer.summarize_by_date [tx4])
      (Some (rollup_of [tx1; tx2])) = (true, Some table) /\
    (forall p r,
        In p (FloorsheetDateSummarizer.summarize_by_date [tx4]) ->
        In r (snd p) -> In r table) /\
    (forall r, In r table ->
       (exists p, In p (FloorsheetDateSummarizer.summarize_by_date [tx4]) /\
                  In r (snd p)) \/
       (exists existing_df,
           Some (rollup_of [tx1; tx2]) = Some existing_df /\
           In r existing_df /\
           str_ge (FloorsheetDateSummarizer.row_date r) sample_cutoff = true)).
Proof.
  apply save_date_summaries_rows.
  intros H. vm_compute in H. discriminate H.
Defined.

(** ** The date rollup run *)

Section DateRollupRun.
Import FloorsheetDateSummarizer.

(** The run fails, and leaves the rollup file untouched, exactly when the
    raw store is missing or keeps no row under retention.  Otherwise it
    succeeds and writes a non-empty table in which every row, recomputed or
    carried over, has a date inside the retention window. *)
Theorem date_run_outcome (c : string) (input_file : option (list Transaction))
    (output_file : option (list Row)) :
  match load_data c input_file with
  | [] => run c input_file output_file = (false, output_file)
  | _ :: _ =>
      exists table,
        run c input_file output_file = (true, Some table) /\
        table <> [] /\
        Forall (fun r => str_ge (row_date r) c = true) table
  end.
Proof.
  unfold run. destruct (load_data c input_file) as [| t raw] eqn:El;
    [reflexivity |].
  pose proof (summarize_by_date_nonempty (t :: raw) ltac:(discriminate))
    as Hne.
  destruct (save_date_summaries_pieces c (summarize_by_date (t :: raw))
              output_file Hne) as [pieces [E [Hnew Hall]]].
  destruct (summarize_by_date (t :: raw)) as [| p ds] eqn:Es;
    [contradiction |].
  exists (List.concat pieces). split; [exact E |]. rewrite <- Es in *.
  pose proof (summarize_by_date_dates (t :: raw)) as Hk.
  pose proof (summarize_by_date_own_date (t :: raw)) as HF.
  rewrite Forall_forall in HF. split.
  - assert (Hp : In p (summarize_by_date (t :: raw)))
      by (rewrite Es; now left).
    destruct (HF p Hp) as [Hpne _].
    destruct (snd p) as [| r rs] eqn:Ep; [contradiction |].
    intros Et. assert (Hr : In r (List.concat pieces)).
    { apply in_concat. exists (snd p). split; [now apply Hnew |].
      rewrite Ep. now left. }
    rewrite Et in Hr. contradiction.
  - apply Forall_forall. intros r Hr.
    apply in_concat in Hr as [piece [Hpiece Hr]].
    destruct (Hall piece Hpiece) as [[q [Hq ->]] | [e [d [_ ->]]]].
    + destruct (HF q Hq) as [_ Hd]. rewrite Forall_forall in Hd.
      rewrite (Hd r Hr).
      assert (Hin : In (fst q) (map date (t :: raw))).
      { apply unique_In. rewrite <- Hk. now apply in_map. }
      apply in_map_iff in Hin as [t' [<- Ht']].
      rewrite <- El in Ht'. unfold load_data in Ht'.
      destruct input_file as [df |]; [| contradiction].
      unfold retain in Ht'. now apply filter_In in Ht'.
    + apply filter_In in Hr as [Hr _]. unfold retain in Hr.
      now apply filter_In in Hr.
Qed.

(** The pieces appended for a single recomputed date that the persisted
    table already holds. *)
Lemma merge_pieces_single (existing_df : list Row) (d : string)
    (date_df : list Row) :
  In d (map row_date existing_df) ->
  merge_pieces existing_df [(d, date_df)] <> [] /\
  List.concat (merge_pieces existing_df [(d, date_df)]) =
  filter (fun r => negb (String.eqb (row_date r) d)) existing_df ++ date_df.
Proof.
  intros Hin.
  assert (Hm : str_mem d (unique (map row_date existing_df)) = true)
    by (apply str_mem_In, unique_In; exact Hin).
  unfold merge_pieces. cbn [flat_map]. rewrite Hm, app_nil_r.
  destruct (filter (fun r => negb (String.eqb (row_date r) d)) existing_df);
    simpl; rewrite app_nil_r; split; (discriminate || reflexivity).
Qed.

(** Upsert of a single date: when the run recomputes one date and that date
    is in the retained persisted table, the table written is the retained
    persisted rows of all other dates, in their order, followed by the
    recomputed rows. *)
Theorem save_single_date_replaces (c d : string) (date_df : list Row)
    (existing_df0 : list Row) :
  In d (map row_date (retain row_date c existing_df0)) ->
  save_date_summaries c [(d, date_df)] (Some existing_df0) =
  (true,
   Some (filter (fun r => negb (String.eqb (row_date r) d))
           (retain row_date c existing_df0) ++ date_df)).
Proof.
  intros Hin. unfold save_date_summaries.
  destruct (retain row_date c existing_df0) as [| e es] eqn:Er;
    [contradiction |].
  cbv beta iota zeta.
  destruct (merge_pieces_single (e :: es) d date_df Hin) as [Hne Hc].
  destruct (merge_pieces (e :: es) [(d, date_df)]); [contradiction |].
  now rewrite Hc.
Qed.

Lemma save_single_date_replaces_witness :
  save_date_summaries sample_cutoff
    [("2024-01-02", rollup_of [tx1; tx2])] (Some (rollup_of [tx1; tx4])) =
  (true,
   Some (filter (fun r => negb (String.eqb (row_date r) "2024-01-02"))
           (retain row_date sample_cutoff (rollup_of [tx1; tx4]))
         ++ rollup_of [tx1; tx2])).
Proof.
  apply save_single_date_replaces. vm_compute. left. reflexivity.
Defined.

(** With a raw store that holds a single trading date, the run is
    idempotent: the second run writes the table the first run wrote. *)
Theorem date_run_single_date_idempotent (c d : string)
    (raw : list Transaction) :
  raw <> [] ->
  (forall t, In t raw -> date t = d) ->
  str_ge d c = true ->
  exists table,
    run c (Some raw) None = (true, Some table) /\
    run c (Some raw) (Some table) = (true, Some table).
Proof.
  intros Hne Hd Hge.
  assert (Hl : load_data c (Some raw) = raw).
  { unfold load_data, retain. apply filter_all, Forall_forall.
    intros t Ht. now rewrite (Hd t Ht). }
  pose proof (summarize_by_date_dates raw) as Hk.
  pose proof (summarize_by_date_own_date raw) as HF.
  rewrite (unique_const d) in Hk.
  2: { destruct raw; [contradiction | discriminate]. }
  2: { intros y Hy. apply in_map_iff in Hy as [t [<- Ht]]. now apply Hd. }
  destruct (summarize_by_date raw) as [| [d' rows] [| q qs]] eqn:Es;
    try discriminate.
  simpl in Hk. injection Hk as ->.
  inversion HF as [| ? ? [Hrne Hrd] _]; subst. simpl in Hrne, Hrd.
  exists rows.
  assert (Hrun : forall out,
             run c (Some raw) out = save_date_summaries c [(d, rows)] out).
  { intros out. unfold run. rewrite Hl.
    destruct raw; [contradiction |]. now rewrite Es. }
  assert (Hret : retain row_date c rows = rows).
  { apply filter_all. eapply Forall_impl; [| exact Hrd].
    intros r Hr. now rewrite Hr. }
  rewrite !Hrun. split.
  - simpl. now rewrite app_nil_r.
  - unfold save_date_summaries. rewrite Hret.
    destruct rows as [| r rs]; [contradiction |].
    cbv beta iota zeta.
    destruct (merge_pieces_single (r :: rs) d (r :: rs)) as [Hpn Hc].
    { inversion Hrd; subst. simpl. now left. }
    destruct (merge_pieces (r :: rs) [(d, r :: rs)]); [contradiction |].
    rewrite Hc, filter_none; [reflexivity |].
    intros r' Hr'. rewrite Forall_forall in Hrd. rewrite (Hrd r' Hr').
    now rewrite String.eqb_refl.
Qed.

Lemma date_run_single_date_idempotent_witness :
  exists table,
    run sample_cutoff (Some [tx1; tx2]) None = (true, Some table) /\
    run sample_cutoff (Some [tx1; tx2]) (Some table) = (true, Some table).
Proof.
  apply (date_run_single_date_idempotent sample_cutoff "2024-01-02").
  - discriminate.
  - intros t [<- | [<- | []]]; reflexivity.
  - reflexivity.
Defined.

End DateRollupRun.

(** ** The global rollup and the row order *)

Section GlobalOrder.
Import FloorsheetSummarizer.

Lemma str_ge_antisym (a b : string) :
  str_ge a b = true -> str_ge b a = true -> a = b.
Proof. unfold str_ge. intros H1 H2. now apply String.leb_antisym. Qed.

(** The integer sums and the last_updated of an entry are determined by the
    rows of its key, up to their order. *)
Lemma accumulates_counts (g1 g2 : list FloorsheetDateSummarizer.Row)
    (e1 e2 : Entry) :
  Permutation g1 g2 ->
  accumulates g1 e1 -> accumulates g2 e2 ->
  buy_quantity (sums e1) = buy_quantity (sums e2) /\
  sell_quantity (sums e1) = sell_quantity (sums e2) /\
  last_updated e1 = last_updated e2.
Proof.
  intros HP [A1 [_ [A3 [_ [A5 A6]]]]] [B1 [_ [B3 [_ [B5 B6]]]]].
  split; [| split].
  - rewrite A1, B1. apply sumZ_perm. now apply Permutation_map.
  - rewrite A3, B3. apply sumZ_perm. now apply Permutation_map.
  - apply str_ge_antisym.
    + rewrite Forall_forall in A6.
      apply in_map_iff in B5 as [r [<- Hr]]. apply A6.
      eapply Permutation_in; [apply Permutation_sym; exact HP | exact Hr].
    + rewrite Forall_forall in B6.
      apply in_map_iff in A5 as [r [<- Hr]]. apply B6.
      eapply Permutation_in; [exact HP | exact Hr].
Qed.

Lemma aggregate_counts_incl (df1 df2 : list FloorsheetDateSummarizer.Row) :
  Permutation df1 df2 ->
  forall c, In c (map agg_row_counts (aggregate_broker_stock_data df1)) ->
            In c (map agg_row_counts (aggregate_broker_stock_data df2)).
Proof.
  intros HP c Hc. apply in_map_iff in Hc as [row [<- Hrow]].
  destruct df1 as [| r1 df1]; [contradiction |].
  assert (Hne2 : df2 <> []).
  { intros ->. apply Permutation_sym, Permutation_nil in HP. discriminate. }
  assert (HR1 := aggregate_rows (r1 :: df1) ltac:(discriminate)).
  assert (HR2 := aggregate_rows df2 Hne2).
  destruct (global_aggs_inv (r1 :: df1)) as [_ [HK1 [HF1 _]]].
  destruct (global_aggs_inv df2) as [_ [HK2 [HF2 _]]].
  destruct (Forall2_In_r _ _ _ row HR1 Hrow) as [e1 [He1 [Ee1 Hm1]]].
  apply in_map_iff in He1 as [[k e1'] [Ek Hp1]]. simpl in Ek. subst e1'.
  rewrite Forall_forall in HF1, HF2.
  destruct (HF1 _ Hp1) as [Hk1 Hacc1]. simpl in Hk1, Hacc1.
  assert (Hin2 : In k (map fst (broker_stock_aggs df2))).
  { apply HK2. eapply Permutation_in;
      [apply Permutation_map; exact HP |].
    apply HK1. apply in_map_iff. now exists (k, e1). }
  apply in_map_iff in Hin2 as [[k' e2] [Ek' Hp2]]. simpl in Ek'. subst k'.
  destruct (HF2 _ Hp2) as [Hk2 Hacc2]. simpl in Hk2, Hacc2.
  destruct (accumulates_counts (rows_of_key (r1 :: df1) k)
              (rows_of_key df2 k) e1 e2) as [Eb [Es El]];
    [now apply filter_perm | assumption | assumption |].
  destruct (Forall2_In_l _ _ _ e2 HR2) as [row2 [Hrow2 [Ee2 Hm2]]].
  { apply in_map_iff. now exists (k, e2). }
  apply in_map_iff. exists row2. split; [| assumption].
  destruct Hm1 as [_ [_ [Hn1 _]]]. destruct Hm2 as [_ [_ [Hn2 _]]].
  unfold agg_row_counts. rewrite Hn1, Hn2, Ee1, Ee2.
  rewrite <- Hk1, <- Hk2, Eb, Es, El. reflexivity.
Qed.

Lemma aggregate_counts_NoDup (df : list FloorsheetDateSummarizer.Row) :
  NoDup (map agg_row_counts (aggregate_broker_stock_data df)).
Proof.
  apply (NoDup_map_inv (fun c => fst (fst c))). rewrite map_map.
  change (NoDup (map (fun r => agg_key (entry r))
                   (aggregate_broker_stock_data df))).
  rewrite <- (map_map entry agg_key), aggregate_entries.
  rewrite (fold_inv_keys _ _ (global_aggs_inv df)).
  apply (global_aggs_inv df).
Qed.

(** The global rollup of two permutations of a date table has, up to the
    order of its rows, the same rows as far as the key, last_updated,
    buy_quantity, sell_quantity and net_quantity go.  The amounts are float
    sums taken in row order and are not part of the statement. *)
Theorem aggregate_order_independent
    (df1 df2 : list FloorsheetDateSummarizer.Row) :
  Permutation df1 df2 ->
  Permutation (map agg_row_counts (aggregate_broker_stock_data df1))
    (map agg_row_counts (aggregate_broker_stock_data df2)).
Proof.
  intros HP. apply NoDup_Permutation; try apply aggregate_counts_NoDup.
  intros c. split; apply aggregate_counts_incl;
    [assumption | now apply Permutation_sym].
Qed.

Lemma aggregate_order_independent_witness :
  Permutation
    (map agg_row_counts
       (aggregate_broker_stock_data (rollup_of [tx1; tx2; tx4])))
    (map agg_row_counts
       (aggregate_broker_stock_data (rev (rollup_of [tx1; tx2; tx4])))).
Proof.
  apply aggregate_order_independent. apply Permutation_rev.
Defined.

(** The run of the global rollup fails, leaving its output file untouched,
    exactly when the date table is missing or empty.  Otherwise it
    succeeds and the file it writes is the non-empty aggregate of the date
    table, whatever the file held before. *)
Theorem global_run_outcome
    (input_file : option (list FloorsheetDateSummarizer.Row))
    (output_file : option (list Row)) :
  match input_file with
  | Some (r :: df) =>
      run input_file output_file =
        (true, Some (aggregate_broker_stock_data (r :: df))) /\
      aggregate_broker_stock_data (r :: df) <> []
  | _ => run input_file output_file = (false, output_file)
  end.
Proof.
  destruct input_file as [[| r df] |]; try reflexivity.
  pose proof (aggregate_nonempty (r :: df) ltac:(discriminate)) as Hne.
  split; [| assumption]. unfold run.
  destruct (aggregate_broker_stock_data (r :: df)); [contradiction |].
  reflexivity.
Qed.

End GlobalOrder.

(** ** The dict of frames and the row order *)

Section SummariesOrder.
Import FloorsheetDateSummarizer.

(** The frames of [summarize_by_date]: each is the frame of the rows of its
    date, and every date of the table has its frame. *)
Lemma summarize_by_date_frames (df : list Transaction) (p : string * list Row) :
  In p (summarize_by_date df) <->
  In (fst p) (map date df) /\
  date_frame (fst p) (filter (fun r => String.eqb (date r) (fst p)) df) =
  Some (snd p).
Proof.
  pose proof (summarize_by_date_dates df) as Hk.
  assert (Hfr : forall q, In q (summarize_by_date df) ->
             date_frame (fst q)
               (filter (fun r => String.eqb (date r) (fst q)) df) =
             Some (snd q)).
  { unfold summarize_by_date, summarize_by_date_try.
    destruct df as [| t df]; [intros q []|].
    destruct (summarize_dates_some (t :: df) (unique (map date (t :: df))))
      as [res [E HF]].
    rewrite E. rewrite Forall_forall in HF. intros q Hq. now apply HF. }
  split.
  - intros Hp. split; [| now apply Hfr].
    apply unique_In. rewrite <- Hk. now apply in_map.
  - intros [Hd Hf].
    assert (Hin : In (fst p) (map fst (summarize_by_date df)))
      by (rewrite Hk; now apply unique_In).
    apply in_map_iff in Hin as [q [Eq Hq]].
    replace p with q; [assumption |].
    pose proof (Hfr q Hq) as Hfq. rewrite Eq, Hf in Hfq.
    destruct p, q. simpl in *. congruence.
Qed.

Lemma summarize_by_date_counts_incl (l1 l2 : list Transaction) :
  Permutation l1 l2 ->
  forall c, In c (map frame_counts (summarize_by_date l1)) ->
            In c (map frame_counts (summarize_by_date l2)).
Proof.
  intros HP c Hc. apply in_map_iff in Hc as [p [<- Hp]].
  apply summarize_by_date_frames in Hp as [Hd Hf].
  destruct (date_frame_perm (fst p)
              (filter (fun r => String.eqb (date r) (fst p)) l1)
              (filter (fun r => String.eqb (date r) (fst p)) l2))
    as [rows1 [rows2 [E1 [E2 Ec]]]]; [now apply filter_perm |].
  rewrite Hf in E1. injection E1 as <-.
  apply in_map_iff. exists (fst p, rows2). split.
  - unfold frame_counts. simpl. now rewrite Ec.
  - apply summarize_by_date_frames. simpl. split; [| assumption].
    eapply Permutation_in; [apply Permutation_map; exact HP | exact Hd].
Qed.

Lemma summarize_by_date_counts_NoDup (df : list Transaction) :
  NoDup (map frame_counts (summarize_by_date df)).
Proof.
  apply (NoDup_map_inv fst). rewrite map_map.
  change (NoDup (map fst (summarize_by_date df))).
  rewrite summarize_by_date_dates. apply unique_NoDup.
Qed.

(** Permuting the rows of the raw table changes at most the order of the
    per-date frames and the float columns of their rows: the same dates get
    frames with the same rows, in the same order, as far as the date, the
    key, broker_name, buy_quantity, sell_quantity and net_quantity go. *)
Theorem summarize_by_date_order_independent (df1 df2 : list Transaction) :
  Permutation df1 df2 ->
  Permutation (map frame_counts (summarize_by_date df1))
    (map frame_counts (summarize_by_date df2)).
Proof.
  intros HP. apply NoDup_Permutation;
    try apply summarize_by_date_counts_NoDup.
  intros c. split; apply summarize_by_date_counts_incl;
    [assumption | now apply Permutation_sym].
Qed.

Lemma summarize_by_date_order_independent_witness :
  Permutation (map frame_counts (summarize_by_date [tx1; tx4; tx2]))
    (map frame_counts (summarize_by_date [tx4; tx2; tx1])).
Proof.
  apply summarize_by_date_order_independent.
  apply Permutation_trans with [tx4; tx1; tx2].
  - apply perm_swap.
  - apply perm_skip, perm_swap.
Defined.

End SummariesOrder.

(** ** From the raw store to the global rollup *)

Section Pipeline.
Import FloorsheetDateSummarizer.

Lemma keyed_total_absent {A : Type} (ek : A -> string * string) (f : A -> Z)
    (k : string * string) (l : list A) :
  ~ In k (map ek l) ->
  sumZ (map f (filter (fun a => key_eqb (ek a) k) l)) = 0.
Proof.
  intros Hn. rewrite filter_none; [reflexivity |].
  intros a Ha. apply key_eqb_neq. intros E. apply Hn. rewrite <- E.
  now apply in_map.
Qed.

Lemma keyed_total_single {A : Type} (ek : A -> string * string) (f : A -> Z)
    (F : string * string -> Z) (k : string * string) (l : list A) :
  NoDup (map ek l) -> In k (map ek l) ->
  (forall a, In a l -> f a = F (ek a)) ->
  sumZ (map f (filter (fun a => key_eqb (ek a) k) l)) = F k.
Proof.
  induction l as [| a l IH]; simpl; [tauto |].
  intros ND Hin Hf. inversion ND as [| ? ? Hn ND']; subst.
  destruct (key_eqb (ek a) k) eqn:E.
  - apply key_eqb_eq in E. simpl. rewrite E in Hn.
    rewrite (keyed_total_absent ek f k l Hn), (Hf a (or_introl eq_refl)), E.
    unfold sumZ. lia.
  - apply IH; auto. destruct Hin as [Hin | Hin]; [| assumption].
    rewrite Hin in E. rewrite (proj2 (key_eqb_eq k k) eq_refl) in E.
    discriminate.
Qed.

Lemma pair_In_dec (k : string * string) (l : list (string * string)) :
  In k l \/ ~ In k l.
Proof.
  induction l as [| a l [IH | IH]]; simpl; [tauto | tauto |].
  destruct (key_eqb a k) eqn:E.
  - apply key_eqb_eq in E. auto.
  - right. intros [H | H]; [| contradiction].
    rewrite H, (proj2 (key_eqb_eq k k) eq_refl) in E. discriminate.
Qed.

(** In the frame of one date, the rows of a pair hold together the
    quantity the pair bought on that date. *)
Lemma frame_pair_total (d : string) (data : list Transaction)
    (rows : list Row) (id sym : string) :
  date_frame d data = Some rows ->
  date_pair_total id sym rows =
  sumZ (map quantity (bought_rows (id, sym) data)).
Proof.
  intros E. destruct (date_frame_spec d data) as [rows' [E' [ND [HK HF]]]].
  rewrite E in E'. injection E' as <-.
  rewrite map_map in ND. rewrite Forall_forall in HF.
  unfold date_pair_total.
  change (filter (date_pair_eqb id sym) rows) with
    (filter (fun r => key_eqb (entry_key (entry r)) (id, sym)) rows).
  destruct (pair_In_dec (id, sym)
              (map (fun r => entry_key (entry r)) rows)) as [Hin | Hn].
  - apply (keyed_total_single (fun r => entry_key (entry r))
             (fun r => buy_quantity (date_sums r))
             (fun k => sumZ (map quantity (bought_rows k data))));
      try assumption.
    intros r Hr. unfold date_sums.
    destruct (HF (entry r) (in_map entry rows r Hr)) as [_ ->].
    reflexivity.
  - rewrite keyed_total_absent by assumption.
    unfold bought_rows. rewrite filter_none; [reflexivity |].
    intros t Ht. apply key_eqb_neq. intros Ek. apply Hn.
    rewrite <- (map_map entry entry_key). apply HK. left. now exists t.
Qed.

Lemma date_pair_total_app (id sym : string) (l1 l2 : list Row) :
  date_pair_total id sym (l1 ++ l2) =
  date_pair_total id sym l1 + date_pair_total id sym l2.
Proof.
  unfold date_pair_total. now rewrite filter_app, map_app, sumZ_app.
Qed.

Lemma filter_comm {A : Type} (f g : A -> bool) (l : list A) :
  filter f (filter g l) = filter g (filter f l).
Proof.
  induction l as [| a l IH]; simpl; [reflexivity |].
  destruct (f a) eqn:Ef, (g a) eqn:Eg; simpl; rewrite ?Ef, ?Eg, IH;
    reflexivity.
Qed.

(** The global rollup of the frames of a raw table records, for a pair, the
    total quantity of the raw records in which the pair is the buyer. *)
Lemma rollup_buy_total (raw : list Transaction) (id sym : string) :
  agg_pair_total id sym
    (map FloorsheetSummarizer.entry
       (FloorsheetSummarizer.aggregate_broker_stock_data (rollup_of raw))) =
  sumZ (map quantity (bought_rows (id, sym) raw)).
Proof.
  rewrite aggregate_entries.
  destruct (global_aggs_inv (rollup_of raw)) as [_ [_ [_ HT]]].
  rewrite HT. clear HT. unfold rollup_of.
  assert (Hsum : date_pair_total id sym
                   (List.concat (map snd (summarize_by_date raw))) =
                 sumZ (map (fun d =>
                              sumZ (map quantity
                                      (filter (fun r => String.eqb (date r) d)
                                         (bought_rows (id, sym) raw))))
                           (map fst (summarize_by_date raw)))).
  { assert (Hfr : forall p, In p (summarize_by_date raw) ->
               date_frame (fst p)
                 (filter (fun r => String.eqb (date r) (fst p)) raw) =
               Some (snd p))
      by (intros p Hp; now apply summarize_by_date_frames in Hp).
    induction (summarize_by_date raw) as [| p ps IH]; [reflexivity |].
    simpl. rewrite date_pair_total_app, IH by (intros q Hq; apply Hfr; now right).
    rewrite (frame_pair_total _ _ _ id sym (Hfr p (or_introl eq_refl))).
    unfold bought_rows, sumZ. simpl. now rewrite filter_comm. }
  rewrite Hsum, summarize_by_date_dates.
  apply (msum_total 0 Z.add Z.add_0_l Z.add_assoc Z.add_comm
           String.eqb String.eqb_eq date quantity).
  - apply unique_NoDup.
  - intros r Hr. apply unique_In, in_map.
    unfold bought_rows in Hr. now apply filter_In in Hr.
Qed.

(** The first run of the date rollup, with no rollup file yet, writes the
    frames of the retained raw rows one after the other. *)
Lemma date_run_first (c : string) (raw : list Transaction) :
  retain date c raw <> [] ->
  run c (Some raw) None = (true, Some (rollup_of (retain date c raw))) /\
  rollup_of (retain date c raw) <> [].
Proof.
  intros Hne. unfold run, load_data, rollup_of.
  pose proof (summarize_by_date_nonempty _ Hne) as Hs.
  pose proof (summarize_by_date_own_date (retain date c raw)) as HF.
  destruct (retain date c raw) as [| t l]; [contradiction |].
  destruct (summarize_by_date (t :: l)) as [| p ps]; [contradiction |].
  split; [reflexivity |].
  inversion HF as [| ? ? [Hp _] _]; subst. simpl.
  destruct (snd p); [contradiction | discriminate].
Qed.

(** End to end, through the stage drivers: when the raw store keeps some
    row under retention, the first run of the date rollup followed by a run
    of the global rollup both succeed, and the total buy_quantity the
    global table records for a (broker_id, symbol) pair is the total
    quantity of the retained raw records in which that broker bought that
    symbol. *)
Theorem pipeline_buy_total (c : string) (raw : list Transaction)
    (global_file : option (list FloorsheetSummarizer.Row)) :
  retain date c raw <> [] ->
  exists table agg,
    run c (Some raw) None = (true, Some table) /\
    FloorsheetSummarizer.run (Some table) global_file = (true, Some agg) /\
    forall id sym,
      agg_pair_total id sym (map FloorsheetSummarizer.entry agg) =
      sumZ (map quantity (bought_rows (id, sym) (retain date c raw))).
Proof.
  intros Hne. destruct (date_run_first c raw Hne) as [Erun Hnt].
  exists (rollup_of (retain date c raw)),
    (FloorsheetSummarizer.aggregate_broker_stock_data
       (rollup_of (retain date c raw))).
  split; [exact Erun |]. split; [| intros id sym; apply rollup_buy_total].
  pose proof (aggregate_nonempty _ Hnt) as Ha.
  unfold FloorsheetSummarizer.run.
  destruct (rollup_of (retain date c raw)) as [| r rs]; [contradiction |].
  destruct (FloorsheetSummarizer.aggregate_broker_stock_data (r :: rs));
    [contradiction | reflexivity].
Qed.

Lemma pipeline_buy_total_witness :
  exists table agg,
    run sample_cutoff (Some [tx_old; tx1; tx2; tx4]) None =
      (true, Some table) /\
    FloorsheetSummarizer.run (Some table) None = (true, Some agg) /\
    forall id sym,
      agg_pair_total id sym (map FloorsheetSummarizer.entry agg) =
      sumZ (map quantity
              (bought_rows (id, sym)
                 (retain date sample_cutoff [tx_old; tx1; tx2; tx4]))).
Proof.
  apply pipeline_buy_total. discriminate.
Defined.

End Pipeline.

(** ** Loading the raw store *)

(** [load_data] of the date rollup returns only rows inside the retention
    window, in their order, and loading the table it returned gives that
    table again; a missing file loads as the empty table. *)
Theorem load_data_retention (c : string)
    (input_file : option (list Transaction)) :
  Forall (fun r => str_ge (date r) c = true)
         (FloorsheetDateSummarizer.load_data c input_file) /\
  FloorsheetDateSummarizer.load_data c
    (Some (FloorsheetDateSummarizer.load_data c input_file)) =
  FloorsheetDateSummarizer.load_data c input_file /\
  (forall r, In r (FloorsheetDateSummarizer.load_data c input_file) <->
             exists df, input_file = Some df /\ In r df /\
                        str_ge (date r) c = true).
Proof.
  unfold FloorsheetDateSummarizer.load_data.
  destruct input_file as [df |].
  - split; [apply (retain_all_ge date) |].
    split; [apply (retain_idem date) |].
    intros r. unfold retain. rewrite filter_In. split.
    + intros H. now exists df.
    + intros [df' [E H]]. now injection E as <-.
  - split; [constructor |]. split; [reflexivity |].
    intros r. split; [intros [] | intros [df [E _]]; discriminate].
Qed.

(** ** The request parameters *)

Lemma split_nonempty (sep : ascii) (s : string) : split sep s <> [].
Proof.
  destruct s as [| ch s]; simpl; [discriminate |].
  destruct (Ascii.eqb ch sep); [discriminate |].
  destruct (split sep s); discriminate.
Qed.

Lemma split_length (sep : ascii) (s : string) :
  List.length (split sep s) = S (count_char sep s).
Proof.
  induction s as [| ch s IH]; simpl; [reflexivity |].
  destruct (Ascii.eqb ch sep); simpl; [now rewrite IH |].
  pose proof (split_nonempty sep s) as Hne.
  destruct (split sep s); [contradiction | exact IH].
Qed.

(** Joining the pieces of a split with another character replaces the
    separator by that character. *)
Lemma join_split (old new : ascii) (s : string) :
  String.concat (String new EmptyString) (split old s) =
  replace_char old new s.
Proof.
  induction s as [| ch s IH]; simpl; [reflexivity |].
  pose proof (split_nonempty old s) as Hne.
  destruct (Ascii.eqb ch old).
  - destruct (split old s) as [| part parts]; [contradiction |].
    cbn [String.concat] in *. rewrite <- IH. reflexivity.
  - destruct (split old s) as [| part parts]; [contradiction |].
    rewrite <- IH. destruct parts; reflexivity.
Qed.

(** The [date] parameter of a request: it is sent exactly when the target
    date holds two dashes, and is then the target date with each dash
    replaced by a slash; any other target date is dropped from the request
    without an error.  The [pg] parameter is sent from page 2 on. *)
Theorem get_page_date_param (target_date : string) (page_num : Z) :
  FloorsheetDownloaderPages.date_param
    (FloorsheetDownloaderPages.get_page_params (Some target_date) page_num) =
    (if (count_char "-" target_date =? 2)%nat
     then Some (replace_char "-" "/" target_date) else None) /\
  FloorsheetDownloaderPages.date_param
    (FloorsheetDownloaderPages.get_page_params None page_num) = None /\
  (FloorsheetDownloaderPages.pg
     (FloorsheetDownloaderPages.get_page_params (Some target_date) page_num)
   = Some page_num <-> 1 < page_num).
Proof.
  split; [| split; [reflexivity |]].
  - unfold FloorsheetDownloaderPages.get_page_params.
    cbn [FloorsheetDownloaderPages.date_param].
    destruct target_date as [| ch s]; [reflexivity |].
    cbv zeta. rewrite split_length, join_split. reflexivity.
  - unfold FloorsheetDownloaderPages.get_page_params.
    cbn [FloorsheetDownloaderPages.pg].
    destruct (page_num >? 1) eqn:E.
    + split; [intros _; lia | reflexivity].
    + split; [discriminate | intros H; lia].
Qed.

(** ** The pages of a download *)

Section DownloadFacts.
Import FloorsheetDownloaderPages.
Context {Cells Fields : Type}.
Variable parse_row : Cells -> option Fields.
Variable get_page : Z -> option (Page Cells).

Lemma state_eta (st : State Fields) :
  mkState _ (all_data _ st) (current_date _ st) = st.
Proof. now destruct st. Qed.

(** Once the current date is set, a page is stamped with it and the state
    does not change. *)
Lemma extract_dated (st : State Fields) (soup : Page Cells) (d : string) :
  current_date _ st = Some d -> d <> EmptyString ->
  extract_transactions _ _ parse_row st soup =
  (match table _ soup with
   | Some rows => stamp_rows _ _ parse_row (Some d) rows
   | None => []
   end, st).
Proof.
  intros Hd Hne. unfold extract_transactions.
  destruct (table _ soup) as [rows |]; [| reflexivity].
  rewrite Hd. destruct d as [| ch d]; [contradiction |]. simpl.
  now rewrite <- Hd, state_eta.
Qed.

Lemma fetch_page_dated (st : State Fields) (n : Z) (d : string) :
  current_date _ st = Some d -> d <> EmptyString ->
  fetch_page _ _ parse_row get_page st n =
  mkState _ (all_data _ st ++ page_records _ _ parse_row get_page (Some d) n)
    (Some d).
Proof.
  intros Hd Hne. unfold fetch_page, page_records.
  destruct (get_page n) as [soup |].
  - rewrite (extract_dated st soup d Hd Hne). now rewrite Hd.
  - now rewrite app_nil_r, <- Hd, state_eta.
Qed.

Lemma fetch_pages_dated (pages : list Z) (st : State Fields) (d : string) :
  current_date _ st = Some d -> d <> EmptyString ->
  fold_left (fetch_page _ _ parse_row get_page) pages st =
  mkState _
    (all_data _ st ++
     flat_map (page_records _ _ parse_row get_page (Some d)) pages)
    (Some d).
Proof.
  revert st. induction pages as [| n pages IH]; intros st Hd Hne; simpl.
  - now rewrite app_nil_r, <- Hd, state_eta.
  - rewrite (fetch_page_dated st n d Hd Hne), IH by (assumption || reflexivity).
    simpl. now rewrite app_assoc.
Qed.

Lemma stamp_rows_date (d : option string) (rows : list Cells) :
  Forall (fun r => s_date _ r = d) (stamp_rows _ _ parse_row d rows).
Proof.
  apply Forall_forall. intros r Hr. unfold stamp_rows in Hr.
  apply in_flat_map in Hr as [cells [_ Hr]].
  destruct (parse_row cells); [| contradiction].
  destruct Hr as [<- | []]. reflexivity.
Qed.

Lemma page_records_date (d : option string) (pages : list Z) :
  Forall (fun r => s_date _ r = d)
         (flat_map (page_records _ _ parse_row get_page d) pages).
Proof.
  apply Forall_forall. intros r Hr.
  apply in_flat_map in Hr as [n [_ Hr]]. unfold page_records in Hr.
  destruct (get_page n) as [soup |]; [| contradiction].
  destruct (table _ soup) as [rows |]; [| contradiction].
  pose proof (stamp_rows_date d rows) as HF.
  rewrite Forall_forall in HF. now apply HF.
Qed.

(** A download whose first request fails returns no rows and leaves the
    downloader as it was.  A download whose first page carries a date
    returns the rows the downloader had accumulated before, followed by the
    rows of page 1 and of every page from 2 up to the page limit that could
    be fetched, in page order; a page that fails is skipped and discards
    nothing; every new row is stamped with the date of the first page; the
    limit is the page count of the first page, capped by [max_pages] unless
    that is absent or 0. *)
Theorem download_floorsheet_rows (st : State Fields) (max_pages : option Z) :
  (get_page 1 = None ->
   download_floorsheet _ _ parse_row get_page st max_pages = ([], st)) /\
  (forall first_page d,
      get_page 1 = Some first_page ->
      page_date _ first_page = Some d -> d <> EmptyString ->
      let pages :=
        1 :: range 2 (limit_pages (total_pages _ first_page) max_pages + 1) in
      let new_rows :=
        flat_map (page_records _ _ parse_row get_page (Some d)) pages in
      download_floorsheet _ _ parse_row get_page st max_pages =
        (all_data _ st ++ new_rows,
         mkState _ (all_data _ st ++ new_rows) (Some d)) /\
      Forall (fun r => s_date _ r = Some d) new_rows).
Proof.
  split.
  - intros E. unfold download_floorsheet. now rewrite E.
  - intros first_page d E Hd Hne pages new_rows.
    split; [| apply page_records_date].
    unfold download_floorsheet. rewrite E.
    rewrite (extract_dated (mkState _ (all_data _ st) (page_date _ first_page))
               first_page d Hd Hne).
    cbv beta iota zeta.
    rewrite (fetch_pages_dated _ _ d) by (assumption || reflexivity).
    cbn [all_data current_date].
    subst new_rows pages. cbn [flat_map].
    assert (H1 : page_records _ _ parse_row get_page (Some d) 1 =
                 match table _ first_page with
                 | Some rows => stamp_rows _ _ parse_row (Some d) rows
                 | None => []
                 end) by (unfold page_records; now rewrite E).
    now rewrite H1, !app_assoc.
Qed.

End DownloadFacts.

Lemma download_floorsheet_rows_witness :
  FloorsheetDownloaderPages.download_floorsheet _ _ sample_parse_row
    sample_get_page (FloorsheetDownloaderPages.mkState string [] None)
    (Some 0) =
  ([FloorsheetDownloaderPages.mkScraped string (Some "2024-01-02") "row a";
    FloorsheetDownloaderPages.mkScraped string (Some "2024-01-02") "row b"],
   FloorsheetDownloaderPages.mkState string
     [FloorsheetDownloaderPages.mkScraped string (Some "2024-01-02") "row a";
      FloorsheetDownloaderPages.mkScraped string (Some "2024-01-02") "row b"]
     (Some "2024-01-02")).
Proof.
  apply (proj2 (download_floorsheet_rows sample_parse_row sample_get_page
                  (FloorsheetDownloaderPages.mkState string [] None)
                  (Some 0))
           (FloorsheetDownloaderPages.mkPage string (Some "2024-01-02") 3
              (Some ["row a"; ""]))
           "2024-01-02").
  - reflexivity.
  - reflexivity.
  - discriminate.
Defined.
